(** * Traffic sign classifier: the request/response core of [predict_sign.py]

    A shallow embedding of [TrafficSignPredictor] (constructor and
    [predict_image]) together with the library calls it is built from:
    [os.path.exists], [tf.keras.models.load_model], [cv2.imread],
    [cv2.resize], array division, [np.expand_dims], [model.predict],
    [np.argmax], [np.max] and [dict.get]; and of the desktop shell around it,
    [TrafficSignGUI] (constructor, [setup_window], the widgets
    [create_widgets] keeps, [upload_image]) and the script body.

    Floating point values are IEEE 754 binary floats as specified by the
    Standard Library's [SpecFloat], held in binary64 form (every float32
    value is one); the class-index table is a [gmap]. *)

From Stdlib Require Import ZArith List Lia Bool.
From Stdlib Require Import Floats.SpecFloat Strings.Byte.
From stdpp Require Import base option list gmap strings pretty.

Local Open Scope Z_scope.
Local Open Scope string_scope.

(** ** Python values the classifier handles *)

(** Exceptions derived from [Exception]; each carries its message. *)
Inductive exn : Type :=
| FileNotFoundError (msg : string)
| AttributeError (msg : string)
| ValueError (msg : string)
| cv2_error (msg : string)
| LibraryError (msg : string).

(** [str(e)] *)
Definition str (e : exn) : string :=
  match e with
  | FileNotFoundError msg | AttributeError msg | ValueError msg
  | cv2_error msg | LibraryError msg => msg
  end.

(** Result of evaluating a call: a value, or a raised exception. *)
Inductive outcome (A : Type) : Type :=
| Ok (a : A)
| Raise (e : exn).
Arguments Ok {A} a.
Arguments Raise {A} e.

(** A decoded image as [cv2.imread] returns it: rows of BGR pixels with
    [uint8] channels. *)
Definition pixel : Type := byte * byte * byte.
Definition Image : Type := list (list pixel).

(** The same layout with [float64] channels, and a batch of such images
    (leading axis added by [np.expand_dims]). *)
Definition fpixel : Type := spec_float * spec_float * spec_float.
Definition FImage : Type := list (list fpixel).
Definition Tensor : Type := list FImage.

(** A loaded Keras model, seen through the one method the classifier
    calls.  [predict] returns a two-dimensional array (one row per batch
    element) or raises. *)
Record Model : Type := { predict : Tensor -> outcome (list (list spec_float)) }.

(** ** IEEE 754 values *)

Module Float.

(** numpy's [float64] and Python's [float]: binary64. *)
Definition prec : Z := 53.
Definition emax : Z := 1024.

Definition of_Z (z : Z) : spec_float := binary_normalize prec emax z 0 false.
Definition div (x y : spec_float) : spec_float := SFdiv prec emax x y.

Definition zero : spec_float := S754_zero false.
Definition one : spec_float := Eval vm_compute in of_Z 1.
Definition f255 : spec_float := Eval vm_compute in of_Z 255.

Definition isnan (x : spec_float) : bool :=
  match x with S754_nan => true | _ => false end.

(** C's [x <= y], [x < y] and [x >= y] on floats: false as soon as one
    side is a NaN. *)
Definition le (x y : spec_float) : bool := SFleb x y.
Definition lt (x y : spec_float) : bool := SFltb x y.
Definition ge (x y : spec_float) : bool := SFleb y x.

(** Membership of the closed unit interval. *)
Definition in_unit (x : spec_float) : bool := le zero x && le x one.

End Float.

(** ** numpy operations used by the preprocessing and decision steps *)

Module np.

(** The running (index, value) pair of [argmax] over a flat array: the
    element loop of numpy's float [argmax], where a new element wins when
    [!(x <= mp)] and a NaN, once it is the running maximum, stops the scan. *)
Fixpoint argmax_from (i : nat) (best : nat) (mp : spec_float)
         (l : list spec_float) : nat :=
  match l with
  | [] => best
  | x :: l' =>
      if Float.isnan mp then best
      else if negb (Float.le x mp) then argmax_from (S i) i x l'
      else argmax_from (S i) best mp l'
  end.

Definition empty_argmax : exn :=
  ValueError "attempt to get argmax of an empty sequence".

(** [np.argmax(a)] with no axis: index into the flattened array; an
    empty array is a [ValueError]. *)
Definition argmax (a : list (list spec_float)) : outcome Z :=
  match concat a with
  | [] => Raise empty_argmax
  | x :: l => Ok (Z.of_nat (argmax_from 1 0 x l))
  end.

(** One step of the [maximum] reduction, [a] the running value and [b]
    the next element: the element replaces the running value when it is
    at least as large, so of two zeros of different sign the later one is
    kept; a NaN on either side is propagated. *)
Definition maximum (a b : spec_float) : spec_float :=
  if Float.ge b a || Float.isnan b then b else a.

(** [np.max(a)] with no axis: [maximum] reduced over the flattened array.
    Which of several equal entries the library returns is fixed here by
    the left-to-right reduction; the entries differ at most in the sign
    of a zero. *)
Definition max (a : list (list spec_float)) : outcome spec_float :=
  match concat a with
  | [] => Raise (ValueError "zero-size array to reduction operation maximum which has no identity")
  | x :: l => Ok (fold_left maximum l x)
  end.

(** [image / 255.0] on a [uint8] array: every channel is converted to
    [float64] and divided. *)
Definition channel_div (d : spec_float) (c : byte) : spec_float :=
  Float.div (Float.of_Z (Z.of_N (Byte.to_N c))) d.

Definition divide (image : Image) (d : spec_float) : FImage :=
  map (map (fun p : pixel =>
              let '(b, g, r) := p in
              (channel_div d b, channel_div d g, channel_div d r))) image.

(** [np.expand_dims(image, axis=0)] *)
Definition expand_dims (image : FImage) : Tensor := [image].

End np.

(** ** The process state: instance attributes, file system, observable effects *)

(** What the program does to its surroundings, in order. *)
Inductive event : Type :=
| ErrorDialog (title message : string)      (* messagebox.showerror *)
| Stdout (line : string)                   (* print *)
| ModelLoad (path : string)               (* tf.keras.models.load_model *)
| Inference (input : Tensor)                (* model.predict *)
| ProgressBar.                              (* the progress bar a completed
                                               model.predict writes to stdout *)

(** The attributes of one [TrafficSignPredictor] object; [None] is an
    attribute that has not been assigned. *)
Record Predictor : Type := {
  model : option Model;
  categories : option (gmap Z string)
}.

(** A freshly allocated object, as [__init__] receives it. *)
Definition fresh : Predictor := {| model := None; categories := None |}.

(** The files as the libraries see them, and the log of effects. *)
Record World : Type := {
  path_exists : string -> bool;           (* os.path.exists *)
  model_files : string -> outcome Model;  (* what load_model yields for a path *)
  image_files : string -> option Image;   (* what imread decodes at a path *)
  imread_errors : string -> option exn;   (* the exception imread raises on a
                                             file it cannot decode, if it
                                             raises rather than returns None *)
  trace : list event
}.

Record State : Type := { self : Predictor; world : World }.

Definition log (ev : event) (w : World) : World :=
  {| path_exists := path_exists w; model_files := model_files w;
     image_files := image_files w; imread_errors := imread_errors w;
     trace := trace w ++ [ev] |}.

(** Computations that read and write the state and may raise. *)
Definition M (A : Type) : Type := State -> outcome A * State.

Definition ret {A} (a : A) : M A := fun st => (Ok a, st).

Definition raise {A} (e : exn) : M A := fun st => (Raise e, st).

Definition bind {A B} (c : M A) (k : A -> M B) : M B :=
  fun st =>
    match c st with
    | (Ok a, st') => k a st'
    | (Raise e, st') => (Raise e, st')
    end.

Notation "x <- c ;; k" := (bind c (fun x => k))
  (at level 100, c at next level, right associativity).
Notation "c ;;; k" := (bind c (fun _ => k))
  (at level 100, right associativity).

(** [try: body except Exception as e: handler e] *)
Definition try_except {A} (body : M A) (handler : exn -> M A) : M A :=
  fun st =>
    match body st with
    | (Ok a, st') => (Ok a, st')
    | (Raise e, st') => handler e st'
    end.

(** A library call that only computes. *)
Definition call {A} (r : outcome A) : M A := fun st => (r, st).

Definition emit (ev : event) : M unit :=
  fun st => (Ok tt, {| self := self st; world := log ev (world st) |}).

(** Reading an attribute that was never assigned. *)
Definition no_attribute (name : string) : exn :=
  AttributeError ("'TrafficSignPredictor' object has no attribute '" +:+ name +:+ "'").

(** Reading [self.model] and [self.categories]. *)
Definition self_model : M Model :=
  fun st =>
    match model (self st) with
    | Some m => (Ok m, st)
    | None => (Raise (no_attribute "model"), st)
    end.

Definition self_categories : M (gmap Z string) :=
  fun st =>
    match categories (self st) with
    | Some d => (Ok d, st)
    | None => (Raise (no_attribute "categories"), st)
    end.

(** [self.model = m] and [self.categories = d] *)
Definition set_model (m : Model) : M unit :=
  fun st => (Ok tt, {| self := {| model := Some m; categories := categories (self st) |};
                       world := world st |}).

Definition set_categories (d : gmap Z string) : M unit :=
  fun st => (Ok tt, {| self := {| model := model (self st); categories := Some d |};
                       world := world st |}).

(** ** Library calls that touch the world *)

Module os_path.
Definition exists_ (path : string) : M bool :=
  fun st => (Ok (path_exists (world st) path), st).
End os_path.

Module keras.
(** [tf.keras.models.load_model(path)]: the attempt is logged, then the
    artifact is parsed or the call raises. *)
Definition load_model (path : string) : M Model :=
  emit (ModelLoad path) ;;; (fun st => (model_files (world st) path, st)).

(** [m.predict(x)]: one forward pass, logged with its input; when the
    pass completes, Keras writes its progress bar to standard output. *)
Definition model_predict (m : Model) (x : Tensor) : M (list (list spec_float)) :=
  emit (Inference x) ;;;
  y <- call (predict m x) ;;
  emit ProgressBar ;;;
  ret y.
End keras.

Module cv2.
(** [cv2.imread(path)]: the decoded image; [None] when the file is
    missing, unreadable, or not in a supported format; on some files that
    do not decode (a header whose size the decoder refuses, for one) the
    call raises [cv2.error] instead of returning [None]. *)
Definition imread (path : string) : M (option Image) :=
  fun st =>
    match image_files (world st) path with
    | Some img => (Ok (Some img), st)
    | None =>
        match imread_errors (world st) path with
        | Some e => (Raise e, st)
        | None => (Ok None, st)
        end
    end.
End cv2.

Module messagebox.
Definition showerror (title message : string) : M unit :=
  emit (ErrorDialog title message).
End messagebox.

Definition print (line : string) : M unit := emit (Stdout line).

(** [d.get(k, default)] *)
Definition dict_get (d : gmap Z string) (k : Z) (dflt : string) : string :=
  default dflt (d !! k).

(** ** class TrafficSignPredictor *)

(** What [predict_image] returns: [(class_id, class_name, confidence)]. *)
Definition Prediction : Type := option Z * string * spec_float.

Module TrafficSignPredictor.

(** The dict literal assigned to [self.categories]. *)
Definition categories_items : list (Z * string) :=
  [ (0, "Speed limit (20km/h)");
    (1, "Speed limit (30km/h)");
    (2, "Speed limit (50km/h)");
    (3, "Speed limit (60km/h)");
    (4, "Speed limit (70km/h)");
    (5, "Speed limit (80km/h)");
    (6, "End of speed limit (80km/h)");
    (7, "Speed limit (100km/h)");
    (8, "Speed limit (120km/h)");
    (9, "No passing");
    (10, "No passing for vehicles over 3.5 tons");
    (11, "Right-of-way at next intersection");
    (12, "Priority road");
    (13, "Yield");
    (14, "Stop");
    (15, "No vehicles");
    (16, "Vehicles over 3.5 tons prohibited");
    (17, "No entry");
    (18, "General caution");
    (19, "Dangerous curve left");
    (20, "Dangerous curve right");
    (21, "Double curve");
    (22, "Bumpy road");
    (23, "Slippery road");
    (24, "Road narrows on the right");
    (25, "Road work");
    (26, "Traffic signals");
    (27, "Pedestrians");
    (28, "Children crossing");
    (29, "Bicycles crossing");
    (30, "Beware of ice/snow");
    (31, "Wild animals crossing");
    (32, "End of all speed and passing limits");
    (33, "Turn right ahead");
    (34, "Turn left ahead");
    (35, "Ahead only");
    (36, "Go straight or right");
    (37, "Go straight or left");
    (38, "Keep right");
    (39, "Keep left");
    (40, "Roundabout mandatory");
    (41, "End of no passing");
    (42, "End of no passing by vehicles over 3.5 tons") ].

Definition categories_dict : gmap Z string := list_to_map categories_items.

Definition __init__ (model_path : string) : M unit :=
  try_except
    (found <- os_path.exists_ model_path ;;
     (if negb found
      then raise (FileNotFoundError ("Model file '" +:+ model_path +:+ "' not found"))
      else ret tt) ;;;
     m <- keras.load_model model_path ;;
     set_model m ;;;
     set_categories categories_dict)
    (fun e =>
       messagebox.showerror "Error" ("Failed to load model: " +:+ str e) ;;;
       raise e).

Section predict.

(** [cv2.resize(src, dsize)] with the default interpolation; [dsize]
    is (width, height).  The resampling arithmetic is the library's. *)
Variable cv2_resize : Image -> nat * nat -> outcome Image.

Definition predict_image (image_path : string) : M Prediction :=
  try_except
    (image <- cv2.imread image_path ;;
     match image with
     | None => ret (None, "Invalid image", Float.zero)
     | Some image =>
         image <- call (cv2_resize image (30%nat, 30%nat)) ;;
         let image := np.divide image Float.f255 in
         let image := np.expand_dims image in
         m <- self_model ;;
         prediction <- keras.model_predict m image ;;
         predicted_class <- call (np.argmax prediction) ;;
         confidence <- call (np.max prediction) ;;
         d <- self_categories ;;
         ret (Some predicted_class, dict_get d predicted_class "Unknown", confidence)
     end)
    (fun e =>
       print ("Prediction error: " +:+ str e) ;;;
       ret (None, "Prediction failed", Float.zero)).

End predict.

End TrafficSignPredictor.

Import TrafficSignPredictor.

(** ** The desktop shell: class TrafficSignGUI and the script body *)

Definition BG_COLOR : string := "#f0f0f0".
Definition PRIMARY_COLOR : string := "#2c3e50".
Definition SECONDARY_COLOR : string := "#3498db".
Definition ACCENT_COLOR : string := "#e74c3c".
Definition TEXT_COLOR : string := "#333333".

(** The line feed of ["\n"]. *)
Definition newline : string := String (Ascii.ascii_of_nat 10) EmptyString.

(** What [ImageTk.PhotoImage] wraps: the thumbnail PIL made of a file. *)
Definition Photo : Type := Image.

(** A [ttk.Label], by the options the program sets on it: its [text] and
    [foreground], its [image] option, and the Python attribute [image]
    that keeps the photo alive. *)
Record Label : Type := {
  label_text : string;
  label_foreground : string;
  label_image : option Photo;
  label_image_ref : option Photo
}.

(** A [ttk.Progressbar]: its [value] and its [style]. *)
Record Progressbar : Type := {
  bar_value : spec_float;
  bar_style : string
}.

(** The root window, by what [setup_window] and [destroy] change. *)
Record Window : Type := {
  window_title : string;
  window_geometry : string;
  window_bg : string;
  window_resizable : bool * bool;
  column0_weight : Z;
  row0_weight : Z;
  destroyed : bool
}.

(** The attributes of one [TrafficSignGUI] object; [None] is an attribute
    that has not been assigned.  Frames, the header, the footer and the
    button carry no state the program reads back and are not represented. *)
Record Gui : Type := {
  root : Window;
  predictor : option Predictor;
  image_label : option Label;
  result_label : option Label;
  confidence_meter : option Progressbar
}.

(** The object as [__init__] receives it, with the root it is given. *)
Definition new_gui (w : Window) : Gui :=
  {| root := w; predictor := None; image_label := None; result_label := None;
     confidence_meter := None |}.

Record Desktop : Type := { gui : Gui; os : World }.

(** Computations of the shell. *)
Definition G (A : Type) : Type := Desktop -> outcome A * Desktop.

Definition gret {A} (a : A) : G A := fun d => (Ok a, d).

Definition graise {A} (e : exn) : G A := fun d => (Raise e, d).

Definition gbind {A B} (c : G A) (k : A -> G B) : G B :=
  fun d =>
    match c d with
    | (Ok a, d') => k a d'
    | (Raise e, d') => (Raise e, d')
    end.

Notation "x <~ c ;; k" := (gbind c (fun x => k))
  (at level 100, c at next level, right associativity).
Notation "c ~;; k" := (gbind c (fun _ => k))
  (at level 100, right associativity).

Definition gtry {A} (body : G A) (handler : exn -> G A) : G A :=
  fun d =>
    match body d with
    | (Ok a, d') => (Ok a, d')
    | (Raise e, d') => handler e d'
    end.

Definition gui_no_attribute (name : string) : exn :=
  AttributeError ("'TrafficSignGUI' object has no attribute '" +:+ name +:+ "'").

Definition with_root (g : Gui) (w : Window) : Gui :=
  {| root := w; predictor := predictor g; image_label := image_label g;
     result_label := result_label g; confidence_meter := confidence_meter g |}.

Definition with_predictor (g : Gui) (p : Predictor) : Gui :=
  {| root := root g; predictor := Some p; image_label := image_label g;
     result_label := result_label g; confidence_meter := confidence_meter g |}.

Definition with_image_label (g : Gui) (l : Label) : Gui :=
  {| root := root g; predictor := predictor g; image_label := Some l;
     result_label := result_label g; confidence_meter := confidence_meter g |}.

Definition with_result_label (g : Gui) (l : Label) : Gui :=
  {| root := root g; predictor := predictor g; image_label := image_label g;
     result_label := Some l; confidence_meter := confidence_meter g |}.

Definition with_confidence_meter (g : Gui) (b : Progressbar) : Gui :=
  {| root := root g; predictor := predictor g; image_label := image_label g;
     result_label := result_label g; confidence_meter := Some b |}.

(** [self.image_label.configure(image=photo)] *)
Definition image_label_configure (photo : Photo) : G unit :=
  fun d =>
    match image_label (gui d) with
    | Some l =>
        (Ok tt, {| gui := with_image_label (gui d)
                            {| label_text := label_text l;
                               label_foreground := label_foreground l;
                               label_image := Some photo;
                               label_image_ref := label_image_ref l |};
                   os := os d |})
    | None => (Raise (gui_no_attribute "image_label"), d)
    end.

(** [self.image_label.image = photo] *)
Definition image_label_keep (photo : Photo) : G unit :=
  fun d =>
    match image_label (gui d) with
    | Some l =>
        (Ok tt, {| gui := with_image_label (gui d)
                            {| label_text := label_text l;
                               label_foreground := label_foreground l;
                               label_image := label_image l;
                               label_image_ref := Some photo |};
                   os := os d |})
    | None => (Raise (gui_no_attribute "image_label"), d)
    end.

(** [self.result_label.configure(text=..., foreground=...)] *)
Definition result_label_configure (text foreground : string) : G unit :=
  fun d =>
    match result_label (gui d) with
    | Some l =>
        (Ok tt, {| gui := with_result_label (gui d)
                            {| label_text := text;
                               label_foreground := foreground;
                               label_image := label_image l;
                               label_image_ref := label_image_ref l |};
                   os := os d |})
    | None => (Raise (gui_no_attribute "result_label"), d)
    end.

(** [self.confidence_meter["value"] = v] *)
Definition confidence_meter_set_value (v : spec_float) : G unit :=
  fun d =>
    match confidence_meter (gui d) with
    | Some b =>
        (Ok tt, {| gui := with_confidence_meter (gui d)
                            {| bar_value := v; bar_style := bar_style b |};
                   os := os d |})
    | None => (Raise (gui_no_attribute "confidence_meter"), d)
    end.

(** [self.confidence_meter.configure(style=s)] *)
Definition confidence_meter_configure (s : string) : G unit :=
  fun d =>
    match confidence_meter (gui d) with
    | Some b =>
        (Ok tt, {| gui := with_confidence_meter (gui d)
                            {| bar_value := bar_value b; bar_style := s |};
                   os := os d |})
    | None => (Raise (gui_no_attribute "confidence_meter"), d)
    end.

(** [messagebox.showerror] and [os.path.exists], from the shell. *)
Definition gshowerror (title message : string) : G unit :=
  fun d => (Ok tt, {| gui := gui d; os := log (ErrorDialog title message) (os d) |}).

Definition gexists (path : string) : G bool :=
  fun d => (Ok (path_exists (os d) path), d).

(** The thresholds of the confidence display, Python floats. *)
Definition f08 : spec_float := Eval vm_compute in Float.div (Float.of_Z 8) (Float.of_Z 10).
Definition f05 : spec_float := Eval vm_compute in Float.div (Float.of_Z 5) (Float.of_Z 10).

Module TrafficSignGUI.

Section shell.

(** [cv2.resize], as for the predictor. *)
Variable cv2_resize : Image -> nat * nat -> outcome Image.

(** What [Image.open], [thumbnail((400, 400))] and [ImageTk.PhotoImage]
    make of a path: a photo, or the exception one of them raises. *)
Variable photo_of : string -> outcome Photo.

(** [confidence * 100] and [confidence > t] on the numpy scalar
    [predict_image] returns; their precision follows numpy's promotion
    rules and is left to the library. *)
Variable times_100 : spec_float -> spec_float.
Variable exceeds : spec_float -> spec_float -> bool.

Definition setup_window : G unit :=
  fun d =>
    (Ok tt, {| gui := with_root (gui d)
                        {| window_title := "Traffic Sign Classifier";
                           window_geometry := "600x700";
                           window_bg := BG_COLOR;
                           window_resizable := (false, false);
                           column0_weight := 1;
                           row0_weight := 1;
                           destroyed := destroyed (root (gui d)) |};
               os := os d |}).

(** The widgets the object keeps: the preview label, the result label
    with its prompt, and the determinate progress bar. *)
Definition create_widgets : G unit :=
  fun d =>
    (Ok tt,
     {| gui :=
          with_confidence_meter
            (with_result_label
               (with_image_label (gui d)
                  {| label_text := ""; label_foreground := "";
                     label_image := None; label_image_ref := None |})
               {| label_text := "Upload an image to get started";
                  label_foreground := "";
                  label_image := None; label_image_ref := None |})
            {| bar_value := Float.zero; bar_style := "" |};
        os := os d |}).

(** [self.predictor = TrafficSignPredictor(model_path)] *)
Definition new_predictor (model_path : string) : G unit :=
  fun d =>
    match TrafficSignPredictor.__init__ model_path {| self := fresh; world := os d |} with
    | (Ok _, st) => (Ok tt, {| gui := with_predictor (gui d) (self st); os := world st |})
    | (Raise e, st) => (Raise e, {| gui := gui d; os := world st |})
    end.

(** [root.destroy()] *)
Definition root_destroy : G unit :=
  fun d =>
    (Ok tt, {| gui := with_root (gui d)
                        {| window_title := window_title (root (gui d));
                           window_geometry := window_geometry (root (gui d));
                           window_bg := window_bg (root (gui d));
                           window_resizable := window_resizable (root (gui d));
                           column0_weight := column0_weight (root (gui d));
                           row0_weight := row0_weight (root (gui d));
                           destroyed := true |};
               os := os d |}).

Definition __init__ (model_path : string) : G unit :=
  setup_window ~;;
  gtry
    (new_predictor model_path ~;;
     create_widgets)
    (fun _ => root_destroy).

(** [self.predictor.predict_image(file_path)] *)
Definition predictor_predict_image (file_path : string) : G Prediction :=
  fun d =>
    match predictor (gui d) with
    | Some p =>
        match TrafficSignPredictor.predict_image cv2_resize file_path
                {| self := p; world := os d |} with
        | (r, st) => (r, {| gui := with_predictor (gui d) (self st); os := world st |})
        end
    | None => (Raise (gui_no_attribute "predictor"), d)
    end.

(** The button's command; [file_path] is what
    [filedialog.askopenfilename] returned, empty when the dialog was
    dismissed. *)
Definition upload_image (file_path : string) : G unit :=
  if String.eqb file_path "" then gret tt
  else
    gtry
      (photo <~ (fun d => (photo_of file_path, d)) ;;
       image_label_configure photo ~;;
       image_label_keep photo ~;;
       r <~ predictor_predict_image file_path ;;
       let '(class_id, class_name, confidence) := r in
       match class_id with
       | Some k =>
           result_label_configure
             ("Prediction: " +:+ class_name +:+ newline +:+ "(ID: " +:+ pretty k +:+ ")")
             PRIMARY_COLOR ~;;
           confidence_meter_set_value (times_100 confidence) ~;;
           if exceeds confidence f08
           then confidence_meter_configure "Green.Horizontal.TProgressbar"
           else if exceeds confidence f05
           then confidence_meter_configure "Yellow.Horizontal.TProgressbar"
           else confidence_meter_configure "Red.Horizontal.TProgressbar"
       | None => gret tt
       end)
      (fun e =>
         result_label_configure ("Error: " +:+ str e) ACCENT_COLOR ~;;
         confidence_meter_set_value Float.zero).

Definition MODEL_FILE : string := "best_model.h5".

(** The script body, from the existence test on: the dialog when the
    artifact is missing, the application otherwise. *)
Definition main : G unit :=
  found <~ gexists MODEL_FILE ;;
  if negb found
  then gshowerror "Missing Model"
         ("Model file '" +:+ MODEL_FILE +:+ "' not found." +:+ newline
          +:+ "Please train the model first.")
  else __init__ MODEL_FILE.

End shell.

End TrafficSignGUI.

(** ** Vocabulary of the properties *)

(** [k] is a position of the largest value [c] of [v], and no earlier
    position holds a value that large. *)
Definition first_maximum (v : list spec_float) (k : nat) (c : spec_float) : Prop :=
  v !! k = Some c /\
  (forall j y, v !! j = Some y -> Float.le y c = true) /\
  (forall j y, (j < k)%nat -> v !! j = Some y -> Float.lt y c = true).

(** Zeros, of either sign. *)
Definition is_zero (x : spec_float) : bool :=
  match x with S754_zero _ => true | _ => false end.

Definition negative_zero (x : spec_float) : bool :=
  match x with S754_zero true => true | _ => false end.

(** The same number: identical, or two zeros that differ in sign (which
    [==] does not tell apart). *)
Definition same_value (x y : spec_float) : Prop :=
  x = y \/ (is_zero x = true /\ is_zero y = true).

(** The value numpy's [argmax] loop holds when it stops: the entry at the
    index [np.argmax_from] returns. *)
Fixpoint argmax_value (mp : spec_float) (l : list spec_float) : spec_float :=
  match l with
  | [] => mp
  | x :: l' =>
      if Float.isnan mp then mp
      else if negb (Float.le x mp) then argmax_value x l'
      else argmax_value mp l'
  end.

(** The format in which numpy evaluates [confidence * 100] and
    [confidence > 0.8] for the scalar [predict_image] returns: binary64
    under the promotion rules of numpy 1 (and for a float64 model output),
    binary32 under those of numpy 2 for a float32 output, where the Python
    number is first converted to float32.  Values are held in binary64
    form throughout; a float32 scalar is such a value, and is brought to
    its float32 form before a float32 operation. *)
Inductive scalar_format : Type := Binary64 | Binary32.

(** Conversion of a binary64 value to float32, rounding to nearest even. *)
Definition to_binary32 (x : spec_float) : spec_float :=
  match x with
  | S754_finite s m e => binary_normalize 24 128 (cond_Zopp s (Zpos m)) e s
  | _ => x
  end.

(** [confidence * 100] *)
Definition scalar_times_100 (f : scalar_format) (c : spec_float) : spec_float :=
  match f with
  | Binary64 => SFmul 53 1024 c (binary_normalize 53 1024 100 0 false)
  | Binary32 => SFmul 24 128 (to_binary32 c) (binary_normalize 24 128 100 0 false)
  end.

(** [confidence > t], [t] a Python float *)
Definition scalar_exceeds (f : scalar_format) (c t : spec_float) : bool :=
  match f with
  | Binary64 => Float.lt t c
  | Binary32 => Float.lt (to_binary32 t) (to_binary32 c)
  end.

(** The two results that report an error. *)
Definition invalid_image : Prediction := (None, "Invalid image", Float.zero).
Definition prediction_failed : Prediction := (None, "Prediction failed", Float.zero).

(** The input every later step works on: resized, scaled, batched. *)
Definition model_input (resized : Image) : Tensor :=
  np.expand_dims (np.divide resized Float.f255).

(** A failure in one of the steps that follow decoding, with the exception
    it raises: resizing, reading the model, the forward pass, the
    reductions over an empty output, reading the label table. *)
Inductive step_failure (cv2_resize : Image -> nat * nat -> outcome Image)
          (st : State) (path : string) : exn -> Prop :=
| resize_raises img e :
    image_files (world st) path = Some img ->
    cv2_resize img (30, 30)%nat = Raise e ->
    step_failure cv2_resize st path e
| model_unset img img' :
    image_files (world st) path = Some img ->
    cv2_resize img (30, 30)%nat = Ok img' ->
    model (self st) = None ->
    step_failure cv2_resize st path (no_attribute "model")
| inference_raises img img' m e :
    image_files (world st) path = Some img ->
    cv2_resize img (30, 30)%nat = Ok img' ->
    model (self st) = Some m ->
    predict m (model_input img') = Raise e ->
    step_failure cv2_resize st path e
| output_empty img img' m p :
    image_files (world st) path = Some img ->
    cv2_resize img (30, 30)%nat = Ok img' ->
    model (self st) = Some m ->
    predict m (model_input img') = Ok p ->
    concat p = [] ->
    step_failure cv2_resize st path np.empty_argmax
| categories_unset img img' m p :
    image_files (world st) path = Some img ->
    cv2_resize img (30, 30)%nat = Ok img' ->
    model (self st) = Some m ->
    predict m (model_input img') = Ok p ->
    concat p <> [] ->
    categories (self st) = None ->
    step_failure cv2_resize st path (no_attribute "categories").

(** The file system of [w'] is that of [w]. *)
Definition same_files (w w' : World) : Prop :=
  path_exists w' = path_exists w /\
  model_files w' = model_files w /\
  image_files w' = image_files w /\
  imread_errors w' = imread_errors w.

(** The shape test [a.shape == (rows, cols, 3)] on an image array. *)
Definition has_shape {A : Type} (rows cols : nat) (a : list (list A)) : bool :=
  (length a =? rows)%nat && forallb (fun r => (length r =? cols)%nat) a.

(** Every channel of every pixel lies in the closed unit interval. *)
Definition unit_channels (a : FImage) : bool :=
  forallb (forallb (fun p : fpixel =>
    let '(b, g, r) := p in
    Float.in_unit b && Float.in_unit g && Float.in_unit r)) a.

(** ** Sample data for the worked examples *)

Module Sample.

(** A nearest-neighbour resampler with the calling convention of
    [cv2.resize]; it rejects an empty source as OpenCV does. *)
Definition resize_nearest (src : Image) (dsize : nat * nat) : outcome Image :=
  let '(w, h) := dsize in
  let rows := length src in
  let cols := length (hd [] src) in
  if ((rows =? 0) || (cols =? 0))%nat
  then Raise (cv2_error "(-215:Assertion failed) !ssize.empty() in function 'resize'")
  else Ok (map (fun i =>
             map (fun j => nth (j * cols / w)%nat (nth (i * rows / h)%nat src []) (x00, x00, x00))
                 (seq 0 w))
           (seq 0 h)).

(** A two by two picture. *)
Definition stop_sign : Image :=
  [ [ (x00, x00, xff); (xff, xff, xff) ];
    [ (x10, x20, xe0); (x80, x80, x80) ] ].

Definition p95 : spec_float := Eval vm_compute in Float.div (Float.of_Z 95) (Float.of_Z 100).
Definition p05 : spec_float := Eval vm_compute in Float.div (Float.of_Z 5) (Float.of_Z 100).

(** Forty-three probabilities: 0.95 for class 14, 0.05 for class 13. *)
Definition stop_probabilities : list spec_float :=
  map (fun i => if (i =? 14)%nat then p95 else if (i =? 13)%nat then p05 else Float.zero)
      (seq 0 43).

Definition stop_model : Model := {| predict := fun _ => Ok [stop_probabilities] |}.

(** A model whose forward pass rejects its input. *)
Definition rejecting_model : Model :=
  {| predict := fun _ => Raise (ValueError "Input 0 of layer is incompatible with the layer") |}.

(** A disk holding one model artifact and one picture. *)
Definition disk : World :=
  {| path_exists := fun p => String.eqb p "best_model.h5" || String.eqb p "stop.png";
     model_files := fun p => if String.eqb p "best_model.h5" then Ok stop_model
                             else Raise (LibraryError "Unable to open file");
     image_files := fun p => if String.eqb p "stop.png" then Some stop_sign else None;
     imread_errors := fun _ => None;
     trace := [] |}.

(** The state once [TrafficSignPredictor("best_model.h5")] has returned. *)
Definition ready : State :=
  snd (__init__ "best_model.h5" {| self := fresh; world := disk |}).

(** An instance whose model rejects every input. *)
Definition broken : State :=
  {| self := {| model := Some rejecting_model; categories := Some categories_dict |};
     world := disk |}.

End Sample.

(** The widgets [upload_image] reads and writes exist, and so does the
    predictor. *)
Definition widgets_ready (g : Gui) : bool :=
  match predictor g, image_label g, result_label g, confidence_meter g with
  | Some _, Some _, Some _, Some _ => true
  | _, _, _, _ => false
  end.

(** The progress-bar styles the button's command chooses from. *)
Definition meter_styles : list string :=
  [ "Green.Horizontal.TProgressbar";
    "Yellow.Horizontal.TProgressbar";
    "Red.Horizontal.TProgressbar" ].

(** The channel value [n] scaled as [image / 255.0] scales it. *)
Definition scaled (n : nat) : spec_float :=
  Float.div (Float.of_Z (Z.of_nat n)) Float.f255.

(** ** Sample data for the desktop shell *)

Module SampleDesktop.

(** A root window as [tk.Tk()] hands it over. *)
Definition tk_root : Window :=
  {| window_title := "tk"; window_geometry := "1x1+0+0"; window_bg := "#d9d9d9";
     window_resizable := (true, true); column0_weight := 0; row0_weight := 0;
     destroyed := false |}.

(** PIL reads the picture of the sample disk and a GIF that OpenCV does
    not decode; any other path is missing. *)
Definition photo_of (path : string) : outcome Photo :=
  if String.eqb path "stop.png" || String.eqb path "sign.gif"
  then Ok Sample.stop_sign
  else Raise (FileNotFoundError ("[Errno 2] No such file or directory: '" +:+ path +:+ "'")).

(** Scalar arithmetic in binary64. *)
Definition times_100 (c : spec_float) : spec_float :=
  SFmul Float.prec Float.emax c (Float.of_Z 100).

Definition exceeds (c t : spec_float) : bool := Float.lt t c.

Definition start : Desktop := {| gui := new_gui tk_root; os := Sample.disk |}.

(** The desktop once the script body has run on the sample disk. *)
Definition running : Desktop := snd (TrafficSignGUI.main start).

Definition upload : string -> G unit :=
  TrafficSignGUI.upload_image Sample.resize_nearest photo_of times_100 exceeds.

(** A disk without the model artifact, and one whose artifact does not parse. *)
Definition bare_disk : World :=
  {| path_exists := fun _ => false;
     model_files := fun _ => Raise (LibraryError "Unable to open file");
     image_files := fun _ => None;
     imread_errors := fun _ => None;
     trace := [] |}.

Definition corrupt_disk : World :=
  {| path_exists := fun _ => true;
     model_files := fun _ => Raise (LibraryError "file signature not found");
     image_files := fun _ => None;
     imread_errors := fun _ => None;
     trace := [] |}.

End SampleDesktop.

(** ** Sample data: a file the decoder refuses *)

Module SampleRefused.

Definition refusal : exn :=
  cv2_error "(-215:Assertion failed) pixels <= CV_IO_MAX_IMAGE_PIXELS in function 'validateInputImageSize'".

(** The sample disk with one more file, whose header announces more
    pixels than OpenCV accepts: [cv2.imread] raises on it. *)
Definition disk : World :=
  {| path_exists := fun p => String.eqb p "huge.png" || path_exists Sample.disk p;
     model_files := model_files Sample.disk;
     image_files := image_files Sample.disk;
     imread_errors := fun p => if String.eqb p "huge.png" then Some refusal else None;
     trace := [] |}.

Definition ready : State :=
  {| self := {| model := Some Sample.stop_model; categories := Some categories_dict |};
     world := disk |}.

End SampleRefused.

(** * Properties *)

Local Open Scope list_scope.

(** ** The order of IEEE 754 values *)

Section FloatOrder.

(** [SFcompare] orders by class and sign first, then by exponent and
    mantissa; the proofs split on the constructors and settle the
    remaining integer comparisons. *)
Ltac sf_compare :=
  repeat match goal with
  | |- context [Pos.compare_cont Eq ?a ?b] =>
      change (Pos.compare_cont Eq a b) with (Pos.compare a b)
  | H : context [Pos.compare_cont Eq ?a ?b] |- _ =>
      change (Pos.compare_cont Eq a b) with (Pos.compare a b) in H
  end;
  repeat match goal with
  | H : context [Z.compare ?a ?b] |- _ => destruct (Z.compare_spec a b); simpl in *
  | |- context [Z.compare ?a ?b] => destruct (Z.compare_spec a b); simpl in *
  | H : context [Pos.compare ?a ?b] |- _ => destruct (Pos.compare_spec a b); simpl in *
  | |- context [Pos.compare ?a ?b] => destruct (Pos.compare_spec a b); simpl in *
  end;
  try congruence; try lia.

Ltac sf_cases :=
  unfold Float.le, Float.lt, Float.ge, Float.isnan, SFleb, SFltb in *;
  repeat match goal with
  | x : spec_float |- _ => destruct x as [[|]|[|]| |[|] ? ?]
  end;
  simpl in *; try congruence; sf_compare.

Lemma float_le_total x y :
  Float.isnan x = false -> Float.isnan y = false ->
  Float.le x y = false -> Float.lt y x = true.
Proof. intros; sf_cases. Qed.

Lemma float_le_refl x : Float.isnan x = false -> Float.le x x = true.
Proof. intros; sf_cases. Qed.

Lemma float_le_trans x y z :
  Float.le x y = true -> Float.le y z = true -> Float.le x z = true.
Proof. intros; sf_cases. Qed.

Lemma float_le_lt_trans x y z :
  Float.le x y = true -> Float.lt y z = true -> Float.lt x z = true.
Proof. intros; sf_cases. Qed.

Lemma float_lt_le x y : Float.lt x y = true -> Float.le x y = true.
Proof. intros; sf_cases. Qed.

Lemma float_lt_irrefl x : Float.lt x x = false.
Proof. sf_cases. Qed.

Lemma float_in_unit_not_nan x : Float.in_unit x = true -> Float.isnan x = false.
Proof. unfold Float.in_unit; intros H; apply andb_prop in H as [_ H]; now destruct x. Qed.

Lemma float_nle_ge x y :
  Float.isnan x = false -> Float.isnan y = false ->
  Float.le x y = false -> Float.le y x = true.
Proof. intros; sf_cases. Qed.

Lemma float_le_antisym x y :
  Float.le x y = true -> Float.le y x = true -> same_value x y.
Proof.
  intros Hxy Hyx. unfold same_value, is_zero.
  destruct x as [[|]|[|]| |[|] mx ex], y as [[|]|[|]| |[|] my ey];
    try (left; reflexivity); try (right; split; reflexivity);
    unfold Float.le, SFleb in *; simpl in *; try discriminate.
  - left.
    change (Pos.compare_cont Eq mx my) with (Pos.compare mx my) in Hxy.
    change (Pos.compare_cont Eq my mx) with (Pos.compare my mx) in Hyx.
    destruct (Z.compare_spec ex ey), (Z.compare_spec ey ex); simpl in *;
      try discriminate; try lia.
    destruct (Pos.compare_spec mx my), (Pos.compare_spec my mx); simpl in *;
      try discriminate; try lia; subst; congruence.
  - left.
    change (Pos.compare_cont Eq mx my) with (Pos.compare mx my) in Hxy.
    change (Pos.compare_cont Eq my mx) with (Pos.compare my mx) in Hyx.
    destruct (Z.compare_spec ex ey), (Z.compare_spec ey ex); simpl in *;
      try discriminate; try lia.
    destruct (Pos.compare_spec mx my), (Pos.compare_spec my mx); simpl in *;
      try discriminate; try lia; subst; congruence.
Qed.

Lemma same_value_le_r x a b : same_value a b -> Float.le x a = Float.le x b.
Proof.
  intros [->|[Ha Hb]]; [reflexivity|].
  destruct a; try discriminate. destruct b; try discriminate.
  now destruct x as [[|]|[|]| |[|] ? ?].
Qed.

Lemma same_value_le_l x a b : same_value a b -> Float.le a x = Float.le b x.
Proof.
  intros [->|[Ha Hb]]; [reflexivity|].
  destruct a; try discriminate. destruct b; try discriminate.
  now destruct x as [[|]|[|]| |[|] ? ?].
Qed.

Lemma same_value_nan a b : same_value a b -> Float.isnan a = Float.isnan b.
Proof.
  intros [->|[Ha Hb]]; [reflexivity|].
  destruct a; try discriminate. now destruct b.
Qed.

Lemma same_value_refl a : same_value a a.
Proof. now left. Qed.

End FloatOrder.

(** ** [np.argmax] and [np.max] *)

Section Reductions.

Lemma maximum_nan_l a l : Float.isnan a = true -> fold_left np.maximum l a = a.
Proof.
  intros Ha. destruct a; try discriminate.
  induction l as [|x l IH]; simpl; [reflexivity|].
  unfold np.maximum at 2, Float.ge.
  replace (SFleb S754_nan x) with false by now destruct x.
  destruct x; simpl; exact IH.
Qed.

(** [np.max] returns one of the entries. *)
Lemma fold_maximum_in l : forall c, In (fold_left np.maximum l c) (c :: l).
Proof.
  induction l as [|x l IH]; intros c; simpl; [now left|].
  destruct (IH (np.maximum c x)) as [H|H].
  - rewrite <- H. unfold np.maximum.
    destruct (Float.ge x c || Float.isnan x); [right; now left|now left].
  - right. now right.
Qed.

(** The scan returns the position of the value it holds at the end. *)
Lemma argmax_from_lookup l : forall pre best mp,
  pre !! best = Some mp ->
  (pre ++ l) !! np.argmax_from (length pre) best mp l = Some (argmax_value mp l).
Proof.
  induction l as [|x l IH]; intros pre best mp Hb; simpl.
  - rewrite app_nil_r. exact Hb.
  - destruct (Float.isnan mp) eqn:Hn.
    + apply lookup_app_l_Some. exact Hb.
    + replace (pre ++ x :: l) with ((pre ++ [x]) ++ l) by (rewrite <- app_assoc; reflexivity).
      replace (S (length pre)) with (length (pre ++ [x])) by (rewrite length_app; simpl; lia).
      destruct (Float.le x mp) eqn:Hle; simpl; apply IH.
      * apply lookup_app_l_Some. exact Hb.
      * rewrite lookup_app_r by lia. now rewrite Nat.sub_diag.
Qed.

(** The scan and the reduction end on the same number, whatever the
    values: they can differ only in which of two zeros they kept. *)
Lemma argmax_value_fold l : forall mp acc,
  same_value mp acc ->
  same_value (argmax_value mp l) (fold_left np.maximum l acc).
Proof.
  induction l as [|x l IH]; intros mp acc Hs; simpl; [exact Hs|].
  rewrite (same_value_nan _ _ Hs).
  destruct (Float.isnan acc) eqn:Hacc.
  - assert (mp = acc) as ->.
    { destruct Hs as [?|[_ Hz]]; [assumption|]. destruct acc; discriminate. }
    assert (np.maximum acc x = acc) as ->.
    { destruct acc; try discriminate. unfold np.maximum, Float.ge.
      replace (SFleb S754_nan x) with false by now destruct x.
      now destruct x. }
    rewrite maximum_nan_l by exact Hacc. apply same_value_refl.
  - unfold np.maximum at 2, Float.ge. fold (Float.le acc x).
    rewrite (same_value_le_r x _ _ Hs).
    destruct (Float.isnan x) eqn:Hx.
    + replace (Float.le x acc) with false by (destruct x; try discriminate; reflexivity).
      rewrite orb_true_r. simpl. apply IH, same_value_refl.
    + rewrite orb_false_r.
      destruct (Float.le x acc) eqn:Hle; simpl.
      * destruct (Float.le acc x) eqn:Hge.
        -- apply IH. destruct Hs as [->|[Hz1 Hz2]].
           ++ apply float_le_antisym; assumption.
           ++ pose proof (float_le_antisym _ _ Hge Hle) as [->|[_ Hz]];
                [right; now split|right; now split].
        -- apply IH. exact Hs.
      * rewrite (float_nle_ge _ _ Hx Hacc Hle). apply IH, same_value_refl.
Qed.

Lemma first_maximum_not_nan v k c : first_maximum v k c -> Float.isnan c = false.
Proof.
  intros (Hk & Hle & _). specialize (Hle _ _ Hk). now destruct c.
Qed.

Lemma first_maximum_keep pre best mp x :
  first_maximum pre best mp -> Float.le x mp = true ->
  first_maximum (pre ++ [x]) best mp.
Proof.
  intros (Hk & Hle & Hlt) Hx. split; [|split].
  - apply lookup_app_l_Some. exact Hk.
  - intros j y Hj. apply lookup_app_Some in Hj as [Hj|[_ Hj]]; [eauto|].
    apply list_lookup_singleton_Some in Hj as [_ <-]. exact Hx.
  - intros j y Hjk Hj. apply lookup_app_Some in Hj as [Hj|[Hge _]]; [eauto|].
    apply lookup_lt_Some in Hk. lia.
Qed.

Lemma first_maximum_replace pre best mp x :
  first_maximum pre best mp -> Float.isnan x = false -> Float.le x mp = false ->
  first_maximum (pre ++ [x]) (length pre) x.
Proof.
  intros Hfm Hx Hnle.
  pose proof (first_maximum_not_nan _ _ _ Hfm) as Hmp.
  destruct Hfm as (Hk & Hle & Hlt).
  pose proof (float_le_total _ _ Hx Hmp Hnle) as Hgt.
  split; [|split].
  - rewrite lookup_app_r by lia. now rewrite Nat.sub_diag.
  - intros j y Hj. apply lookup_app_Some in Hj as [Hj|[_ Hj]].
    + apply float_lt_le. eapply float_le_lt_trans; eauto.
    + apply list_lookup_singleton_Some in Hj as [_ <-]. now apply float_le_refl.
  - intros j y Hjk Hj. apply lookup_app_Some in Hj as [Hj|[Hge _]]; [|lia].
    eapply float_le_lt_trans; eauto.
Qed.

Lemma argmax_from_first_maximum l : forall pre best mp,
  first_maximum pre best mp ->
  forallb (fun x => negb (Float.isnan x)) l = true ->
  first_maximum (pre ++ l) (np.argmax_from (length pre) best mp l) (argmax_value mp l).
Proof.
  induction l as [|x l IH]; intros pre best mp Hfm Hl; simpl.
  - now rewrite app_nil_r.
  - simpl in Hl. apply andb_prop in Hl as [Hx Hl]. apply negb_true_iff in Hx.
    rewrite (first_maximum_not_nan _ _ _ Hfm).
    replace (pre ++ x :: l) with ((pre ++ [x]) ++ l) by (rewrite <- app_assoc; reflexivity).
    replace (S (length pre)) with (length (pre ++ [x])) by (rewrite length_app; simpl; lia).
    destruct (Float.le x mp) eqn:Hle; simpl; apply IH; try assumption.
    + now apply first_maximum_keep.
    + eapply first_maximum_replace; eauto.
Qed.

Lemma first_maximum_singleton x : Float.isnan x = false -> first_maximum [x] 0 x.
Proof.
  intros Hx. split; [reflexivity|split].
  - intros j y Hj. apply list_lookup_singleton_Some in Hj as [_ <-]. now apply float_le_refl.
  - intros j y Hj. lia.
Qed.

(** Two entries of an array without a negative zero that are the same
    number are identical. *)
Lemma same_value_eq_in (v : list spec_float) x y :
  forallb (fun z => negb (negative_zero z)) v = true ->
  In x v -> In y v -> same_value x y -> x = y.
Proof.
  intros Hv Hx Hy [H|[Hzx Hzy]]; [exact H|].
  rewrite forallb_forall in Hv.
  pose proof (Hv _ Hx) as Hnx. pose proof (Hv _ Hy) as Hny.
  destruct x as [[|]| | |]; try discriminate;
    destruct y as [[|]| | |]; try discriminate; reflexivity.
Qed.

End Reductions.

(** ** The label table *)

Section Labels.

Lemma categories_dict_inside (n : nat) :
  (n < 43)%nat -> is_Some (categories_dict !! Z.of_nat n).
Proof.
  intros Hn.
  do 43 (destruct n as [|n]; [vm_compute; eauto|]).
  lia.
Qed.

Lemma categories_dict_outside (k : Z) :
  ~ (0 <= k <= 42) -> categories_dict !! k = None.
Proof.
  intros Hk. apply not_elem_of_list_to_map_1. simpl. intros Hin.
  repeat (apply elem_of_cons in Hin as [->|Hin]; [lia|]).
  now apply elem_of_nil in Hin.
Qed.

(** No class is named like an error report. *)
Lemma dict_get_not_error (k : Z) :
  dict_get categories_dict k "Unknown" <> "Invalid image" /\
  dict_get categories_dict k "Unknown" <> "Prediction failed".
Proof.
  unfold dict_get. destruct (categories_dict !! k) as [s|] eqn:Hk; simpl.
  - apply elem_of_list_to_map_2 in Hk. unfold categories_items in Hk.
    repeat (apply elem_of_cons in Hk as [Hk|Hk];
            [injection Hk as _ ->; split; discriminate|]).
    now apply elem_of_nil in Hk.
  - split; discriminate.
Qed.

End Labels.

(** ** Running the classifier *)

Section Running.

Variable cv2_resize : Image -> nat * nat -> outcome Image.

Ltac run :=
  unfold predict_image, __init__, try_except, bind, ret, raise, call, print,
    messagebox.showerror, cv2.imread, keras.model_predict, keras.load_model,
    os_path.exists_, self_model, self_categories, set_model, set_categories, emit;
  simpl.

Lemma predict_image_undecodable st path :
  image_files (world st) path = None ->
  imread_errors (world st) path = None ->
  predict_image cv2_resize path st = (Ok invalid_image, st).
Proof. intros H He. run. now rewrite H, He. Qed.

(** A decoder that raises ends in the handler. *)
Lemma predict_image_decode_raises st path e :
  image_files (world st) path = None ->
  imread_errors (world st) path = Some e ->
  predict_image cv2_resize path st =
    (Ok prediction_failed,
     {| self := self st;
        world := log (Stdout ("Prediction error: " +:+ str e)) (world st) |}).
Proof. intros H He. run. now rewrite H, He. Qed.

(** The one path on which a class index is produced. *)
Lemma predict_image_decided st path img img' m p c l d :
  image_files (world st) path = Some img ->
  cv2_resize img (30, 30)%nat = Ok img' ->
  model (self st) = Some m ->
  predict m (model_input img') = Ok p ->
  concat p = c :: l ->
  categories (self st) = Some d ->
  predict_image cv2_resize path st =
    (Ok (Some (Z.of_nat (np.argmax_from 1 0 c l)),
         dict_get d (Z.of_nat (np.argmax_from 1 0 c l)) "Unknown",
         fold_left np.maximum l c),
     {| self := self st;
        world := log ProgressBar (log (Inference (model_input img')) (world st)) |}).
Proof.
  unfold model_input. intros Hi Hr Hm Hp Hc Hd. run.
  rewrite Hi, Hr. simpl. rewrite Hm. simpl. rewrite Hp. simpl.
  unfold np.argmax, np.max.
  rewrite Hc. simpl. now rewrite Hd.
Qed.

(** Every failing step ends in the handler. *)
Lemma predict_image_handled st path e :
  step_failure cv2_resize st path e ->
  exists evs,
    predict_image cv2_resize path st =
      (Ok prediction_failed,
       {| self := self st;
          world := log (Stdout ("Prediction error: " +:+ str e))
                       (fold_left (fun w ev => log ev w) evs (world st)) |}) /\
    (forall line, Stdout line ∉ evs) /\
    (evs = [] \/ exists x, evs = [Inference x] \/ evs = [Inference x; ProgressBar]).
Proof.
  assert (Hnone : forall evs : list event,
             (evs = [] \/ exists x, evs = [Inference x] \/ evs = [Inference x; ProgressBar]) ->
             forall line, Stdout line ∉ evs).
  { intros evs [->|[x [->| ->]]] line Hin.
    - now apply elem_of_nil in Hin.
    - apply list_elem_of_singleton in Hin. discriminate.
    - apply elem_of_cons in Hin as [Hin|Hin]; [discriminate|].
      apply list_elem_of_singleton in Hin. discriminate. }
  intros [img e' Hi Hr | img img' Hi Hr Hm | img img' m e' Hi Hr Hm Hp
         | img img' m p Hi Hr Hm Hp Hc | img img' m p Hi Hr Hm Hp Hc Hd];
    unfold model_input in *; run;
    rewrite Hi, Hr; simpl; try rewrite Hm; simpl; try rewrite Hp; simpl.
  - exists []. split; [reflexivity|]. split; [apply Hnone|]; now left.
  - exists []. split; [reflexivity|]. split; [apply Hnone|]; now left.
  - eexists [_]. split; [reflexivity|]. split; [apply Hnone|]; right; eexists; now left.
  - unfold np.argmax. rewrite Hc. simpl.
    eexists [_; _]. split; [reflexivity|]. split; [apply Hnone|]; right; eexists; now right.
  - unfold np.argmax, np.max. destruct (concat p) as [|c l]; [congruence|].
    simpl. rewrite Hd.
    eexists [_; _]. split; [reflexivity|]. split; [apply Hnone|]; right; eexists; now right.
Qed.

(** The ways a call can go. *)
Lemma predict_image_cases st path :
  (image_files (world st) path = None /\ imread_errors (world st) path = None) \/
  (exists e, image_files (world st) path = None /\ imread_errors (world st) path = Some e) \/
  (exists e, step_failure cv2_resize st path e) \/
  (exists img img' m p c l d,
      image_files (world st) path = Some img /\
      cv2_resize img (30, 30)%nat = Ok img' /\
      model (self st) = Some m /\
      predict m (model_input img') = Ok p /\
      concat p = c :: l /\
      categories (self st) = Some d).
Proof.
  destruct (image_files (world st) path) as [img|] eqn:Hi.
  2:{ destruct (imread_errors (world st) path) as [e|] eqn:He;
        [right; left; eauto|left; auto]. }
  right. right.
  destruct (cv2_resize img (30, 30)%nat) as [img'|e] eqn:Hr;
    [|left; eexists; eapply resize_raises; eauto].
  destruct (model (self st)) as [m|] eqn:Hm;
    [|left; eexists; eapply model_unset; eauto].
  destruct (predict m (model_input img')) as [p|e] eqn:Hp;
    [|left; eexists; eapply inference_raises; eauto].
  destruct (concat p) as [|c l] eqn:Hc;
    [left; eexists; eapply output_empty; eauto|].
  destruct (categories (self st)) as [d|] eqn:Hd.
  - right. exists img, img', m, p, c, l, d. repeat split; assumption.
  - left. eexists. eapply categories_unset; eauto. congruence.
Qed.

Lemma log_fold_self evs w :
  same_files w (fold_left (fun w ev => log ev w) evs w).
Proof.
  revert w. induction evs as [|ev evs IH]; intros w; simpl; [now repeat split|].
  destruct (IH (log ev w)) as (H1 & H2 & H3 & H4). now repeat split.
Qed.

Lemma log_fold_trace evs w :
  trace (fold_left (fun w ev => log ev w) evs w) = trace w ++ evs.
Proof.
  revert w. induction evs as [|ev evs IH]; intros w; simpl.
  - now rewrite app_nil_r.
  - rewrite IH. simpl. now rewrite <- app_assoc.
Qed.

(** A call changes nothing but the log of effects. *)
Lemma predict_image_frame st path :
  self (snd (predict_image cv2_resize path st)) = self st /\
  same_files (world st) (world (snd (predict_image cv2_resize path st))).
Proof.
  destruct (predict_image_cases st path) as [[Hi Hn]|[[e [Hi He]]|[[e He]|H]]].
  - rewrite predict_image_undecodable by assumption. now repeat split.
  - rewrite (predict_image_decode_raises _ _ _ Hi He). now repeat split.
  - destruct (predict_image_handled _ _ _ He) as (evs & -> & _). simpl.
    destruct (log_fold_self evs (world st)) as (H1 & H2 & H3 & H4). now repeat split.
  - destruct H as (img & img' & m & p & c & l & d & Hi & Hr & Hm & Hp & Hc & Hd).
    rewrite (predict_image_decided _ _ _ _ _ _ _ _ _ Hi Hr Hm Hp Hc Hd).
    now repeat split.
Qed.

(** The result is a function of the instance and of what the decoder
    makes of the files. *)
Lemma predict_image_ext st1 st2 path :
  self st1 = self st2 ->
  image_files (world st1) = image_files (world st2) ->
  imread_errors (world st1) = imread_errors (world st2) ->
  fst (predict_image cv2_resize path st1) = fst (predict_image cv2_resize path st2).
Proof.
  intros Hs Hf He. run. rewrite Hf, He.
  destruct (image_files (world st2) path) as [img|];
    [|destruct (imread_errors (world st2) path); reflexivity].
  simpl.
  destruct (cv2_resize img (30, 30)%nat) as [img'|e]; simpl; [|reflexivity].
  rewrite Hs.
  destruct (model (self st2)) as [m|]; simpl; [|reflexivity].
  destruct (predict m _) as [p|e]; simpl; [|reflexivity].
  destruct (np.argmax p); simpl; [|reflexivity].
  destruct (np.max p); simpl; [|reflexivity].
  rewrite ?Hs. now destruct (categories (self st2)).
Qed.

End Running.

(** ** Preprocessing *)

Section Preprocessing.

Lemma channel_div_unit (c : byte) :
  Float.in_unit (np.channel_div Float.f255 c) = true.
Proof. destruct c; vm_compute; reflexivity. Qed.

Lemma divide_has_shape rows cols (img : Image) d :
  has_shape rows cols (np.divide img d) = has_shape rows cols img.
Proof.
  unfold has_shape, np.divide. rewrite length_map. f_equal.
  induction img as [|r img IH]; simpl; [reflexivity|].
  now rewrite length_map, IH.
Qed.

Lemma divide_unit_channels (img : Image) :
  unit_channels (np.divide img Float.f255) = true.
Proof.
  unfold unit_channels, np.divide.
  induction img as [|r img IH]; simpl; [reflexivity|].
  rewrite IH, andb_true_r. clear IH.
  induction r as [|[[b g] rd] r IH]; simpl; [reflexivity|].
  now rewrite !channel_div_unit, IH.
Qed.

End Preprocessing.

(** ** Construction *)

Section Construction.

Ltac run_init :=
  unfold __init__, try_except, bind, ret, raise, messagebox.showerror,
    keras.load_model, os_path.exists_, set_model, set_categories, emit;
  simpl.

(** A parsable artifact: both attributes are assigned, after one load. *)
Lemma init_loaded st path m :
  path_exists (world st) path = true ->
  model_files (world st) path = Ok m ->
  __init__ path st =
    (Ok tt, {| self := {| model := Some m; categories := Some categories_dict |};
               world := log (ModelLoad path) (world st) |}).
Proof. intros He Hm. run_init. rewrite He. simpl. now rewrite Hm. Qed.

(** An artifact that does not parse: the load error is shown and raised again. *)
Lemma init_unparsable st path e :
  path_exists (world st) path = true ->
  model_files (world st) path = Raise e ->
  __init__ path st =
    (Raise e, {| self := self st;
                 world := log (ErrorDialog "Error" ("Failed to load model: " +:+ str e))
                              (log (ModelLoad path) (world st)) |}).
Proof. intros He Hm. run_init. rewrite He. simpl. now rewrite Hm. Qed.

(** C7. Constructing a predictor on a path that does not exist raises
    [FileNotFoundError] (the spec's ModelNotFound).  The only effect is
    the error dialog: [load_model] is not called, and neither [model] nor
    [categories] is assigned on the new object. *)
Theorem init_missing_model (w : World) (path : string) :
  path_exists w path = false ->
  let missing := "Model file '" +:+ path +:+ "' not found" in
  let r := __init__ path {| self := fresh; world := w |} in
  fst r = Raise (FileNotFoundError missing) /\
  model (self (snd r)) = None /\
  categories (self (snd r)) = None /\
  same_files w (world (snd r)) /\
  trace (world (snd r)) =
    trace w ++ [ErrorDialog "Error" ("Failed to load model: " +:+ missing)].
Proof.
  intros He missing r. subst r missing. run_init. rewrite He. simpl.
  now repeat split.
Qed.

Lemma init_missing_model_witness :
  let r := __init__ "missing.h5" {| self := fresh; world := Sample.disk |} in
  fst r = Raise (FileNotFoundError "Model file 'missing.h5' not found") /\
  model (self (snd r)) = None /\
  categories (self (snd r)) = None /\
  same_files Sample.disk (world (snd r)) /\
  trace (world (snd r)) =
    [ErrorDialog "Error" "Failed to load model: Model file 'missing.h5' not found"].
Proof.
  apply (init_missing_model Sample.disk "missing.h5"). reflexivity.
Defined.

End Construction.

(** ** Classification *)

Section Classification.

Variable cv2_resize : Image -> nat * nat -> outcome Image.

(** C2, as amended. On a path that does not decode, the call returns
    [(None, "Invalid image", 0.0)] and nothing else happens when
    [cv2.imread] returns [None]; when [cv2.imread] raises instead, the
    exception is caught, printed, and the call returns
    [(None, "Prediction failed", 0.0)]. *)
Theorem undecodable_is_invalid_image (st : State) (path : string) :
  image_files (world st) path = None ->
  (imread_errors (world st) path = None ->
   predict_image cv2_resize path st = (Ok (None, "Invalid image", S754_zero false), st)) /\
  (forall e, imread_errors (world st) path = Some e ->
   predict_image cv2_resize path st =
     (Ok (None, "Prediction failed", S754_zero false),
      {| self := self st;
         world := log (Stdout ("Prediction error: " +:+ str e)) (world st) |})).
Proof.
  intros Hi. split.
  - intros He. now apply predict_image_undecodable.
  - intros e He. now apply predict_image_decode_raises.
Qed.


(** C1. When the image decodes, resizing succeeds and the loaded model
    answers with one row of 43 probabilities, the call returns a class
    index between 0 and 42, a confidence in the closed unit interval, and
    the label the table holds for that index. *)
Theorem classification_in_range (st : State) (path : string)
        (img img' : Image) (m : Model) (v : list spec_float) :
  image_files (world st) path = Some img ->
  cv2_resize img (30, 30)%nat = Ok img' ->
  model (self st) = Some m ->
  categories (self st) = Some categories_dict ->
  predict m (model_input img') = Ok [v] ->
  length v = 43%nat ->
  forallb Float.in_unit v = true ->
  exists k label conf,
    fst (predict_image cv2_resize path st) = Ok (Some k, label, conf) /\
    0 <= k <= 42 /\
    Float.in_unit conf = true /\
    categories_dict !! k = Some label.
Proof.
  intros Hi Hr Hm Hd Hp Hlen Hunit.
  destruct v as [|c l]; [discriminate|].
  assert (Hc : concat [c :: l] = c :: l) by (simpl; now rewrite app_nil_r).
  rewrite (predict_image_decided _ _ _ _ _ _ _ _ _ _ Hi Hr Hm Hp Hc Hd). simpl.
  pose proof (argmax_from_lookup l [c] 0%nat c eq_refl) as Hk. simpl in Hk.
  set (k := np.argmax_from 1 0 c l) in *.
  assert (Hlt : (k < 43)%nat) by (apply lookup_lt_Some in Hk; simpl in *; lia).
  destruct (categories_dict_inside k Hlt) as [s Hs].
  exists (Z.of_nat k), s, (fold_left np.maximum l c). repeat split.
  - unfold dict_get. now rewrite Hs.
  - lia.
  - lia.
  - rewrite forallb_forall in Hunit. apply Hunit. apply fold_maximum_in.
  - exact Hs.
Qed.

(** C4. On a successful classification the class index is the position
    of the largest entry of the model's output, the first such position
    when several entries are equal; the confidence is the maximum value,
    an entry of the output and the same number as the entry at the class
    index (the two are identical unless they are zeros of different sign,
    so they are identical on an output without a negative zero); the label
    is the table's entry for the index, or "Unknown" when the table has
    none. *)
Theorem decision_is_first_maximum (st : State) (path : string)
        (img img' : Image) (m : Model) (d : gmap Z string)
        (p : list (list spec_float)) :
  image_files (world st) path = Some img ->
  cv2_resize img (30, 30)%nat = Ok img' ->
  model (self st) = Some m ->
  categories (self st) = Some d ->
  predict m (model_input img') = Ok p ->
  concat p <> [] ->
  forallb (fun x => negb (Float.isnan x)) (concat p) = true ->
  exists (k : nat) (top conf : spec_float),
    fst (predict_image cv2_resize path st) =
      Ok (Some (Z.of_nat k), default "Unknown" (d !! Z.of_nat k), conf) /\
    first_maximum (concat p) k top /\
    same_value top conf /\
    In conf (concat p) /\
    (forallb (fun x => negb (negative_zero x)) (concat p) = true ->
     concat p !! k = Some conf).
Proof.
  intros Hi Hr Hm Hd Hp Hne Hnan.
  destruct (concat p) as [|c l] eqn:Hc; [congruence|].
  rewrite (predict_image_decided _ _ _ _ _ _ _ _ _ _ Hi Hr Hm Hp Hc Hd). simpl.
  exists (np.argmax_from 1 0 c l), (argmax_value c l), (fold_left np.maximum l c).
  simpl in Hnan. apply andb_prop in Hnan as [Hc0 Hl]. apply negb_true_iff in Hc0.
  pose proof (argmax_from_first_maximum l [c] 0%nat c (first_maximum_singleton c Hc0) Hl)
    as Hfm. simpl in Hfm.
  pose proof (argmax_value_fold l c c (same_value_refl c)) as Hsame.
  pose proof (fold_maximum_in l c) as Hin.
  split; [reflexivity|]. split; [exact Hfm|]. split; [exact Hsame|].
  split; [exact Hin|].
  intros Hnz. destruct Hfm as (Hk & _).
  rewrite Hk. f_equal.
  apply (same_value_eq_in (c :: l)); try assumption.
  apply list_elem_of_lookup_2 in Hk. now apply list_elem_of_In.
Qed.

(** C5. Calling [predict_image] twice in a row on the same path, with
    the same loaded model, returns the same class index, label and
    confidence. *)
Theorem predict_image_deterministic (st : State) (path : string) :
  fst (predict_image cv2_resize path (snd (predict_image cv2_resize path st))) = fst (predict_image cv2_resize path st).
Proof.
  destruct (predict_image_frame cv2_resize st path) as (Hs & _ & _ & Hf & He).
  apply predict_image_ext; assumption.
Qed.

(** C8. Before inference the decoded image is resized to 30 by 30 (by
    [cv2.resize], which returns the size it is asked for), every channel
    is divided by 255 and so lies in the closed unit interval, and the
    model is run once, on a batch holding that single image. *)
Theorem preprocessing_feeds_unit_batch (st : State) (path : string)
        (img img' : Image) (m : Model) :
  image_files (world st) path = Some img ->
  cv2_resize img (30, 30)%nat = Ok img' ->
  has_shape 30 30 img' = true ->
  model (self st) = Some m ->
  exists (x : FImage) (rest : list event),
    trace (world (snd (predict_image cv2_resize path st))) = trace (world st) ++ Inference [x] :: rest /\
    (forall t, Inference t ∉ rest) /\
    x = map (map (fun '(b, g, r) =>
               (Float.div (Float.of_Z (Z.of_N (Byte.to_N b))) (Float.of_Z 255),
                Float.div (Float.of_Z (Z.of_N (Byte.to_N g))) (Float.of_Z 255),
                Float.div (Float.of_Z (Z.of_N (Byte.to_N r))) (Float.of_Z 255)))) img' /\
    has_shape 30 30 x = true /\
    unit_channels x = true.
Proof.
  intros Hi Hr Hshape Hm.
  exists (np.divide img' Float.f255).
  assert (Htr : exists rest,
             trace (world (snd (predict_image cv2_resize path st))) =
               trace (world st) ++ Inference [np.divide img' Float.f255] :: rest /\
             forall t, Inference t ∉ rest).
  { unfold predict_image, try_except, bind, ret, call, print, cv2.imread,
      keras.model_predict, self_model, self_categories, emit. simpl.
    rewrite Hi, Hr. simpl. rewrite Hm. simpl.
    destruct (predict m _) as [p|e]; simpl;
      [destruct (np.argmax p); simpl;
         [destruct (np.max p); simpl; [destruct (categories (self st)); simpl|]|]|].
    all: rewrite <- ?app_assoc; simpl; eexists; (split; [reflexivity|]);
      intros t Ht;
      repeat (apply elem_of_cons in Ht as [Ht|Ht]; [discriminate|]);
      now apply elem_of_nil in Ht. }
  destruct Htr as (rest & Htr & Hrest). exists rest.
  repeat split; try assumption.
  - now rewrite divide_has_shape.
  - apply divide_unit_channels.
Qed.

(** C9. A call to [predict_image] assigns no attribute: the loaded model
    and the label table are the same after the call as before it, and so
    are the files. *)
Theorem predict_image_keeps_instance (st : State) (path : string) :
  model (self (snd (predict_image cv2_resize path st))) = model (self st) /\
  categories (self (snd (predict_image cv2_resize path st))) = categories (self st) /\
  same_files (world st) (world (snd (predict_image cv2_resize path st))).
Proof.
  destruct (predict_image_frame cv2_resize st path) as (Hs & Hf).
  rewrite Hs. split; [reflexivity|split; [reflexivity|exact Hf]].
Qed.

(** C10. For an instance holding the label table its constructor
    installs, the class index of a result is [None] exactly when the label
    is "Invalid image" or "Prediction failed". *)
Theorem class_id_none_iff_error_label (st st' : State) (path : string)
        (k : option Z) (label : string) (conf : spec_float) :
  categories (self st) = Some categories_dict ->
  predict_image cv2_resize path st = (Ok (k, label, conf), st') ->
  (k = None <-> label = "Invalid image" \/ label = "Prediction failed").
Proof.
  intros Hd Hrun.
  destruct (predict_image_cases cv2_resize st path)
    as [[Hi Hn]|[[e [Hi He]]|[[e He]|H]]].
  - rewrite predict_image_undecodable in Hrun by assumption.
    injection Hrun as <- <- <- <-. split; auto.
  - rewrite (predict_image_decode_raises _ _ _ _ Hi He) in Hrun.
    injection Hrun as <- <- <- <-. split; auto.
  - destruct (predict_image_handled _ _ _ _ He) as (evs & Hev & _).
    rewrite Hev in Hrun. injection Hrun as <- <- <- <-. split; auto.
  - destruct H as (img & img' & m & p & c & l & d & Hi & Hr & Hm & Hp & Hc & Hd').
    rewrite (predict_image_decided _ _ _ _ _ _ _ _ _ _ Hi Hr Hm Hp Hc Hd') in Hrun.
    injection Hrun as <- <- <- <-.
    assert (d = categories_dict) as -> by congruence.
    destruct (dict_get_not_error (Z.of_nat (np.argmax_from 1 0 c l))) as [H1 H2].
    split; [discriminate|]. intros [H|H]; contradiction.
Qed.

End Classification.

(** ** The label table and the model's indices *)

(** C6. The label table has an entry for every index from 0 to 42, and
    looking up any other index with [get(..., "Unknown")] yields "Unknown". *)
Theorem label_table_domain :
  (forall k : Z, 0 <= k <= 42 -> is_Some (categories_dict !! k)) /\
  (forall k : Z, ~ (0 <= k <= 42) -> dict_get categories_dict k "Unknown" = "Unknown").
Proof.
  split.
  - intros k Hk. replace k with (Z.of_nat (Z.to_nat k)) by lia.
    apply categories_dict_inside. lia.
  - intros k Hk. unfold dict_get. now rewrite categories_dict_outside.
Qed.

Lemma label_table_domain_witness :
  is_Some (categories_dict !! 42) /\
  dict_get categories_dict 43 "Unknown" = "Unknown" /\
  dict_get categories_dict (-1) "Unknown" = "Unknown".
Proof.
  split; [apply (proj1 label_table_domain 42); lia|].
  split; [apply (proj2 label_table_domain 43); lia|].
  apply (proj2 label_table_domain (-1)); lia.
Defined.

(** ** Worked examples *)

(** The instance built from the sample disk holds the sample model and
    the label table. *)
Example ready_is_constructed :
  Sample.ready =
    {| self := {| model := Some Sample.stop_model; categories := Some categories_dict |};
       world := log (ModelLoad "best_model.h5") Sample.disk |}.
Proof. unfold Sample.ready. now rewrite (init_loaded _ _ Sample.stop_model). Qed.

(** A model that puts 0.95 on class 14 for the stop-sign picture. *)
Example stop_sign_scenario :
  fst (predict_image Sample.resize_nearest "stop.png" Sample.ready)
  = Ok (Some 14, "Stop", Sample.p95).
Proof. vm_compute. reflexivity. Qed.

(** A path at which nothing decodes. *)
Example empty_file_scenario :
  fst (predict_image Sample.resize_nearest "empty.png" Sample.ready)
  = Ok (None, "Invalid image", Float.zero).
Proof. vm_compute. reflexivity. Qed.

(** Without the 43-wide output the table has no entry: a model with 44
    outputs can return index 43, labelled "Unknown". *)
Example wider_model_is_unknown :
  let wide := {| predict := fun _ => Ok [repeat Float.zero 43 ++ [Float.one]] |} in
  fst (predict_image Sample.resize_nearest "stop.png"
         {| self := {| model := Some wide; categories := Some categories_dict |};
            world := Sample.disk |})
  = Ok (Some 43, "Unknown", Float.one).
Proof. vm_compute. reflexivity. Qed.

Lemma undecodable_is_invalid_image_witness :
  predict_image Sample.resize_nearest "empty.png" Sample.ready
    = (Ok (None, "Invalid image", S754_zero false), Sample.ready) /\
  fst (predict_image Sample.resize_nearest "huge.png" SampleRefused.ready)
    = Ok (None, "Prediction failed", S754_zero false).
Proof.
  assert (H1 : image_files (world Sample.ready) "empty.png" = None)
    by (vm_compute; reflexivity).
  assert (H2 : imread_errors (world Sample.ready) "empty.png" = None)
    by (vm_compute; reflexivity).
  assert (H3 : image_files (world SampleRefused.ready) "huge.png" = None)
    by (vm_compute; reflexivity).
  assert (H4 : imread_errors (world SampleRefused.ready) "huge.png"
               = Some SampleRefused.refusal)
    by (vm_compute; reflexivity).
  split.
  - exact (proj1 (undecodable_is_invalid_image Sample.resize_nearest Sample.ready
                    "empty.png" H1) H2).
  - rewrite (proj2 (undecodable_is_invalid_image Sample.resize_nearest
                      SampleRefused.ready "huge.png" H3) _ H4).
    reflexivity.
Defined.

(** C2 as the specification words it fails on a file at which the decoder
    raises: nothing decodes at "huge.png", and the answer is "Prediction
    failed", not "Invalid image". *)
Lemma undecodable_may_be_prediction_failed :
  image_files (world SampleRefused.ready) "huge.png" = None /\
  fst (predict_image Sample.resize_nearest "huge.png" SampleRefused.ready)
    = Ok (None, "Prediction failed", S754_zero false) /\
  fst (predict_image Sample.resize_nearest "huge.png" SampleRefused.ready)
    <> Ok (None, "Invalid image", S754_zero false).
Proof.
  split; [reflexivity|]. split; [vm_compute; reflexivity|].
  vm_compute. discriminate.
Qed.


Lemma classification_in_range_witness :
  exists k label conf,
    fst (predict_image Sample.resize_nearest "stop.png" Sample.ready) = Ok (Some k, label, conf) /\
    0 <= k <= 42 /\
    Float.in_unit conf = true /\
    categories_dict !! k = Some label.
Proof.
  eapply (classification_in_range Sample.resize_nearest Sample.ready "stop.png"
            Sample.stop_sign _ Sample.stop_model Sample.stop_probabilities);
    vm_compute; reflexivity.
Defined.

Lemma decision_is_first_maximum_witness :
  exists (k : nat) (top conf : spec_float),
    fst (predict_image Sample.resize_nearest "stop.png" Sample.ready) =
      Ok (Some (Z.of_nat k), default "Unknown" (categories_dict !! Z.of_nat k), conf) /\
    first_maximum (concat [Sample.stop_probabilities]) k top /\
    same_value top conf /\
    In conf (concat [Sample.stop_probabilities]) /\
    concat [Sample.stop_probabilities] !! k = Some conf.
Proof.
  pose (resized := match Sample.resize_nearest Sample.stop_sign (30, 30)%nat with
                   | Ok i => i
                   | Raise _ => []
                   end).
  assert (H1 : image_files (world Sample.ready) "stop.png" = Some Sample.stop_sign)
    by (vm_compute; reflexivity).
  assert (H2 : Sample.resize_nearest Sample.stop_sign (30, 30)%nat = Ok resized)
    by (vm_compute; reflexivity).
  assert (H3 : model (self Sample.ready) = Some Sample.stop_model)
    by (vm_compute; reflexivity).
  assert (H4 : categories (self Sample.ready) = Some categories_dict)
    by (vm_compute; reflexivity).
  assert (H5 : predict Sample.stop_model (model_input resized)
               = Ok [Sample.stop_probabilities]) by reflexivity.
  assert (H6 : concat [Sample.stop_probabilities] <> []) by discriminate.
  assert (H7 : forallb (fun x => negb (Float.isnan x))
                 (concat [Sample.stop_probabilities]) = true)
    by (vm_compute; reflexivity).
  assert (H8 : forallb (fun x => negb (negative_zero x))
                 (concat [Sample.stop_probabilities]) = true)
    by (vm_compute; reflexivity).
  destruct (decision_is_first_maximum Sample.resize_nearest Sample.ready "stop.png"
              Sample.stop_sign resized Sample.stop_model categories_dict
              [Sample.stop_probabilities] H1 H2 H3 H4 H5 H6 H7)
    as (k & top & conf & Hrun & Hfm & Hsame & Hin & Hexact).
  exists k, top, conf.
  split; [exact Hrun|]. split; [exact Hfm|]. split; [exact Hsame|].
  split; [exact Hin|]. exact (Hexact H8).
Defined.

Lemma preprocessing_feeds_unit_batch_witness :
  exists (x : FImage) (rest : list event),
    trace (world (snd (predict_image Sample.resize_nearest "stop.png" Sample.ready)))
      = trace (world Sample.ready) ++ Inference [x] :: rest /\
    (forall t, Inference t ∉ rest) /\
    has_shape 30 30 x = true /\
    unit_channels x = true.
Proof.
  pose (resized := match Sample.resize_nearest Sample.stop_sign (30, 30)%nat with
                   | Ok i => i
                   | Raise _ => []
                   end).
  assert (H1 : image_files (world Sample.ready) "stop.png" = Some Sample.stop_sign)
    by (vm_compute; reflexivity).
  assert (H2 : Sample.resize_nearest Sample.stop_sign (30, 30)%nat = Ok resized)
    by (vm_compute; reflexivity).
  assert (H3 : has_shape 30 30 resized = true) by (vm_compute; reflexivity).
  assert (H4 : model (self Sample.ready) = Some Sample.stop_model)
    by (vm_compute; reflexivity).
  destruct (preprocessing_feeds_unit_batch Sample.resize_nearest Sample.ready "stop.png"
              Sample.stop_sign resized Sample.stop_model H1 H2 H3 H4)
    as (x & rest & Ht & Hr & _ & Hs & Hu).
  exists x, rest. repeat split; assumption.
Defined.

Lemma class_id_none_iff_error_label_witness :
  (Some 14 = None <-> "Stop" = "Invalid image" \/ "Stop" = "Prediction failed").
Proof.
  eapply (class_id_none_iff_error_label Sample.resize_nearest Sample.ready _ "stop.png"
            (Some 14) "Stop" Sample.p95).
  - vm_compute. reflexivity.
  - vm_compute. reflexivity.
Defined.

(** * Further properties of the predictor *)

(** ** Construction on an existing path *)

(** When the path exists and the artifact parses, construction succeeds
    after exactly one call of [load_model], shows no dialog, and installs
    the loaded model together with the 43-entry label table. *)
Theorem init_installs_model_and_table (w : World) (path : string) (m : Model) :
  path_exists w path = true ->
  model_files w path = Ok m ->
  let r := __init__ path {| self := fresh; world := w |} in
  fst r = Ok tt /\
  model (self (snd r)) = Some m /\
  categories (self (snd r)) = Some categories_dict /\
  same_files w (world (snd r)) /\
  trace (world (snd r)) = trace w ++ [ModelLoad path].
Proof.
  intros He Hm r. subst r.
  rewrite (init_loaded {| self := fresh; world := w |} path m He Hm). simpl.
  now repeat split.
Qed.

Lemma init_installs_model_and_table_witness :
  let r := __init__ "best_model.h5" {| self := fresh; world := Sample.disk |} in
  fst r = Ok tt /\
  model (self (snd r)) = Some Sample.stop_model /\
  categories (self (snd r)) = Some categories_dict /\
  same_files Sample.disk (world (snd r)) /\
  trace (world (snd r)) = [ModelLoad "best_model.h5"].
Proof.
  apply (init_installs_model_and_table Sample.disk "best_model.h5" Sample.stop_model);
    reflexivity.
Defined.

(** When the path exists but [load_model] raises, construction attempts
    the load once, shows the dialog "Failed to load model: ..." with the
    exception's message, raises that same exception again, and assigns
    neither attribute. *)
Theorem init_load_error_is_shown_and_raised (w : World) (path : string) (e : exn) :
  path_exists w path = true ->
  model_files w path = Raise e ->
  let r := __init__ path {| self := fresh; world := w |} in
  fst r = Raise e /\
  self (snd r) = fresh /\
  same_files w (world (snd r)) /\
  trace (world (snd r)) =
    trace w ++ [ModelLoad path; ErrorDialog "Error" ("Failed to load model: " +:+ str e)].
Proof.
  intros He Hm r. subst r.
  rewrite (init_unparsable {| self := fresh; world := w |} path e He Hm). simpl.
  repeat split. now rewrite <- app_assoc.
Qed.

Lemma init_load_error_is_shown_and_raised_witness :
  let r := __init__ "best_model.h5"
             {| self := fresh; world := SampleDesktop.corrupt_disk |} in
  fst r = Raise (LibraryError "file signature not found") /\
  self (snd r) = fresh /\
  same_files SampleDesktop.corrupt_disk (world (snd r)) /\
  trace (world (snd r)) =
    [ModelLoad "best_model.h5";
     ErrorDialog "Error" "Failed to load model: file signature not found"].
Proof.
  apply (init_load_error_is_shown_and_raised SampleDesktop.corrupt_disk "best_model.h5"
           (LibraryError "file signature not found")); reflexivity.
Defined.

(** ** What a returned class index says *)

Section Decision.

Variable cv2_resize : Image -> nat * nat -> outcome Image.

(** A class index in the result always comes from a forward pass: the
    image decoded, the resize succeeded, the model answered, the index lies
    within the flattened output, and the confidence is the same number as
    the output's entry at that index, whatever the values are (NaN
    included); the two are identical unless they are zeros of different
    sign. *)
Theorem class_index_points_at_confidence (st st' : State) (path : string)
        (k : Z) (label : string) (conf : spec_float) :
  predict_image cv2_resize path st = (Ok (Some k, label, conf), st') ->
  exists img img' m p top,
    image_files (world st) path = Some img /\
    cv2_resize img (30, 30)%nat = Ok img' /\
    model (self st) = Some m /\
    predict m (model_input img') = Ok p /\
    0 <= k < Z.of_nat (length (concat p)) /\
    concat p !! Z.to_nat k = Some top /\
    same_value top conf /\
    In conf (concat p).
Proof.
  intros Hrun.
  destruct (predict_image_cases cv2_resize st path)
    as [[Hi Hn]|[[e [Hi He]]|[[e He]|H]]].
  - rewrite predict_image_undecodable in Hrun by assumption. discriminate.
  - rewrite (predict_image_decode_raises _ _ _ _ Hi He) in Hrun. discriminate.
  - destruct (predict_image_handled _ _ _ _ He) as (evs & Hev & _).
    rewrite Hev in Hrun. discriminate.
  - destruct H as (img & img' & m & p & c & l & d & Hi & Hr & Hm & Hp & Hc & Hd).
    rewrite (predict_image_decided _ _ _ _ _ _ _ _ _ _ Hi Hr Hm Hp Hc Hd) in Hrun.
    injection Hrun as <- <- <- <-.
    pose proof (argmax_from_lookup l [c] 0%nat c eq_refl) as Hk. simpl in Hk.
    exists img, img', m, p, (argmax_value c l).
    repeat split; try assumption; try lia.
    + rewrite Hc. apply lookup_lt_Some in Hk. simpl in *. lia.
    + rewrite Hc, Nat2Z.id. exact Hk.
    + apply argmax_value_fold, same_value_refl.
    + rewrite Hc. apply fold_maximum_in.
Qed.

(** For an instance holding the constructor's table, the label of a
    result is "Unknown" exactly when its class index lies outside 0..42. *)
Theorem unknown_label_iff_outside_table (st st' : State) (path : string)
        (k : Z) (label : string) (conf : spec_float) :
  categories (self st) = Some categories_dict ->
  predict_image cv2_resize path st = (Ok (Some k, label, conf), st') ->
  (label = "Unknown" <-> ~ (0 <= k <= 42)).
Proof.
  intros Hd Hrun.
  destruct (predict_image_cases cv2_resize st path)
    as [[Hi Hn]|[[e [Hi He]]|[[e He]|H]]].
  - rewrite predict_image_undecodable in Hrun by assumption. discriminate.
  - rewrite (predict_image_decode_raises _ _ _ _ Hi He) in Hrun. discriminate.
  - destruct (predict_image_handled _ _ _ _ He) as (evs & Hev & _).
    rewrite Hev in Hrun. discriminate.
  - destruct H as (img & img' & m & p & c & l & d & Hi & Hr & Hm & Hp & Hc & Hd').
    rewrite (predict_image_decided _ _ _ _ _ _ _ _ _ _ Hi Hr Hm Hp Hc Hd') in Hrun.
    injection Hrun as <- <- <- <-.
    assert (d = categories_dict) as -> by congruence.
    set (n := np.argmax_from 1 0 c l). unfold dict_get.
    destruct (decide (n < 43)%nat) as [Hn|Hn].
    + split; [|lia]. intros Hu. exfalso.
      destruct (categories_dict !! Z.of_nat n) as [s|] eqn:Hs.
      * simpl in Hu. subst s. apply elem_of_list_to_map_2 in Hs.
        unfold categories_items in Hs.
        repeat (apply elem_of_cons in Hs as [Hs|Hs]; [discriminate Hs|]).
        now apply elem_of_nil in Hs.
      * destruct (categories_dict_inside n Hn) as [s Hs']. congruence.
    + split; [lia|]. intros _.
      rewrite categories_dict_outside by lia. reflexivity.
Qed.

(** What one call writes to standard output.  The program's own line,
    "Prediction error: ...", is printed exactly when the result is
    [(None, "Prediction failed", 0.0)], and it is then the last thing the
    call does.  Apart from it the only output is Keras's progress bar,
    written when a forward pass completes: always on a result with a
    class index, never on "Invalid image".  A call runs at most one
    forward pass. *)
Theorem prints_exactly_on_failure (st : State) (path : string) :
  exists evs,
    trace (world (snd (predict_image cv2_resize path st))) = trace (world st) ++ evs /\
    (fst (predict_image cv2_resize path st) = Ok prediction_failed ->
       exists pre e, evs = pre ++ [Stdout ("Prediction error: " +:+ str e)] /\
                     (pre = [] \/
                      exists x, pre = [Inference x] \/ pre = [Inference x; ProgressBar])) /\
    (fst (predict_image cv2_resize path st) = Ok invalid_image -> evs = []) /\
    (forall k label conf,
       fst (predict_image cv2_resize path st) = Ok (Some k, label, conf) ->
       exists x, evs = [Inference x; ProgressBar]).
Proof.
  destruct (predict_image_cases cv2_resize st path)
    as [[Hi Hn]|[[e [Hi He]]|[[e He]|H]]].
  - rewrite predict_image_undecodable by assumption. simpl.
    exists []. rewrite app_nil_r. repeat split; try discriminate.
  - rewrite (predict_image_decode_raises _ _ _ _ Hi He). simpl.
    eexists [_]. split; [reflexivity|]. repeat split; try discriminate.
    intros _. exists [], e. split; [reflexivity|now left].
  - destruct (predict_image_handled _ _ _ _ He) as (evs & -> & _ & Hshape). simpl.
    exists (evs ++ [Stdout ("Prediction error: " +:+ str e)]).
    split; [now rewrite log_fold_trace, <- app_assoc|].
    repeat split; try discriminate.
    intros _. now exists evs, e.
  - destruct H as (img & img' & m & p & c & l & d & Hi & Hr & Hm & Hp & Hc & Hd).
    rewrite (predict_image_decided _ _ _ _ _ _ _ _ _ _ Hi Hr Hm Hp Hc Hd). simpl.
    eexists [_; _]. split; [now rewrite <- app_assoc|].
    repeat split; try discriminate.
    intros k label conf _. eauto.
Qed.

End Decision.

(** ** A model output that holds a NaN *)

Section NaNOutput.

Lemma argmax_from_first_nan (v1 v2 : list spec_float) : forall i best mp,
  Float.isnan mp = false ->
  forallb (fun x => negb (Float.isnan x)) v1 = true ->
  np.argmax_from i best mp (v1 ++ S754_nan :: v2) = (i + length v1)%nat /\
  fold_left np.maximum (v1 ++ S754_nan :: v2) mp = S754_nan.
Proof.
  induction v1 as [|x v1 IH]; intros i best mp Hmp Hv; simpl.
  - rewrite Hmp.
    replace (Float.le S754_nan mp) with false by now destruct mp.
    assert (np.maximum mp S754_nan = S754_nan) as ->
      by (unfold np.maximum; now rewrite orb_true_r).
    simpl. split.
    + destruct v2; simpl; lia.
    + now apply maximum_nan_l.
  - simpl in Hv. apply andb_prop in Hv as [Hx Hv]. apply negb_true_iff in Hx.
    rewrite Hmp.
    assert (Hmax : Float.isnan (np.maximum mp x) = false)
      by (unfold np.maximum; destruct (Float.ge x mp || Float.isnan x); assumption).
    destruct (Float.le x mp); simpl.
    + destruct (IH (S i) best mp Hmp Hv) as [-> _].
      destruct (IH (S i) best (np.maximum mp x) Hmax Hv) as [_ ->].
      split; [lia|reflexivity].
    + destruct (IH (S i) i x Hx Hv) as [-> _].
      destruct (IH (S i) best (np.maximum mp x) Hmax Hv) as [_ ->].
      split; [lia|reflexivity].
Qed.

Variable cv2_resize : Image -> nat * nat -> outcome Image.

(** When the model's output holds a NaN, the call still succeeds: the
    class index is the position of the first NaN and the confidence is
    NaN. *)
Theorem nan_output_reports_first_nan (st : State) (path : string)
        (img img' : Image) (m : Model) (d : gmap Z string)
        (p : list (list spec_float)) (v1 v2 : list spec_float) :
  image_files (world st) path = Some img ->
  cv2_resize img (30, 30)%nat = Ok img' ->
  model (self st) = Some m ->
  categories (self st) = Some d ->
  predict m (model_input img') = Ok p ->
  concat p = v1 ++ S754_nan :: v2 ->
  forallb (fun x => negb (Float.isnan x)) v1 = true ->
  fst (predict_image cv2_resize path st) =
    Ok (Some (Z.of_nat (length v1)),
        dict_get d (Z.of_nat (length v1)) "Unknown",
        S754_nan).
Proof.
  intros Hi Hr Hm Hd Hp Hc Hv.
  destruct v1 as [|c v1].
  - simpl in Hc.
    rewrite (predict_image_decided _ _ _ _ _ _ _ _ _ _ Hi Hr Hm Hp Hc Hd). simpl.
    rewrite maximum_nan_l by reflexivity.
    now destruct v2.
  - simpl in Hc, Hv. apply andb_prop in Hv as [Hc0 Hv]. apply negb_true_iff in Hc0.
    rewrite (predict_image_decided _ _ _ _ _ _ _ _ _ _ Hi Hr Hm Hp Hc Hd). simpl.
    destruct (argmax_from_first_nan v1 v2 1%nat 0%nat c Hc0 Hv) as [-> ->].
    reflexivity.
Qed.

End NaNOutput.

(** ** Scaling of channel values *)

Section Scaling.

Lemma float_lt_trans x y z :
  Float.lt x y = true -> Float.lt y z = true -> Float.lt x z = true.
Proof. intros Hxy Hyz. eapply float_le_lt_trans; [apply float_lt_le|]; eassumption. Qed.

Lemma scaled_step (n : nat) :
  (n < 255)%nat -> Float.lt (scaled n) (scaled (S n)) = true.
Proof.
  intros Hn.
  assert (Hall : forallb (fun n => Float.lt (scaled n) (scaled (S n))) (seq 0 255) = true)
    by (vm_compute; reflexivity).
  rewrite forallb_forall in Hall. apply Hall. apply in_seq. lia.
Qed.

Lemma scaled_increasing (n m : nat) :
  (n < m <= 255)%nat -> Float.lt (scaled n) (scaled m) = true.
Proof.
  induction m as [|m IH]; intros Hnm; [lia|].
  destruct (decide (n = m)) as [->|Hne].
  - apply scaled_step. lia.
  - eapply float_lt_trans; [apply IH; lia|apply scaled_step; lia].
Qed.

Lemma channel_div_scaled (c : byte) :
  np.channel_div Float.f255 c = scaled (N.to_nat (Byte.to_N c)).
Proof. unfold np.channel_div, scaled. now rewrite N_nat_Z. Qed.

(** [image / 255.0] keeps the order of channel values: a larger byte
    gives a strictly larger float, 0 gives 0.0 and 255 gives 1.0; in
    particular no two channel values are merged. *)
Theorem scaling_preserves_order :
  np.channel_div Float.f255 x00 = Float.zero /\
  np.channel_div Float.f255 xff = Float.one /\
  forall b1 b2 : byte,
    (Byte.to_N b1 < Byte.to_N b2)%N ->
    Float.lt (np.channel_div Float.f255 b1) (np.channel_div Float.f255 b2) = true.
Proof.
  split; [vm_compute; reflexivity|]. split; [vm_compute; reflexivity|].
  intros b1 b2 Hlt. rewrite !channel_div_scaled.
  apply scaled_increasing.
  pose proof (Byte.to_N_bounded b2). lia.
Qed.

Lemma scaling_preserves_order_witness :
  Float.lt (np.channel_div Float.f255 x7f) (np.channel_div Float.f255 x80) = true.
Proof.
  apply (proj2 (proj2 scaling_preserves_order) x7f x80). reflexivity.
Defined.

End Scaling.

(** * Properties of the desktop shell *)

Section Shell.

Variable cv2_resize : Image -> nat * nat -> outcome Image.
Variable photo_of : string -> outcome Photo.
Variable times_100 : spec_float -> spec_float.
Variable exceeds : spec_float -> spec_float -> bool.

Ltac shell :=
  unfold TrafficSignGUI.upload_image, TrafficSignGUI.predictor_predict_image,
    TrafficSignGUI.__init__, TrafficSignGUI.main, TrafficSignGUI.new_predictor,
    TrafficSignGUI.create_widgets, TrafficSignGUI.setup_window,
    TrafficSignGUI.root_destroy, gtry, gbind, gret, graise, gexists, gshowerror,
    image_label_configure, image_label_keep, result_label_configure,
    confidence_meter_set_value, confidence_meter_configure;
  simpl.

Lemma widgets_ready_inv (g : Gui) :
  widgets_ready g = true ->
  exists p il rl cm,
    predictor g = Some p /\ image_label g = Some il /\
    result_label g = Some rl /\ confidence_meter g = Some cm.
Proof.
  unfold widgets_ready.
  destruct (predictor g) as [p|], (image_label g) as [il|],
    (result_label g) as [rl|], (confidence_meter g) as [cm|]; try discriminate.
  intros _. now exists p, il, rl, cm.
Qed.

Lemma nonempty_eqb (s : string) : s <> "" -> String.eqb s "" = false.
Proof. intros Hs. now apply String.eqb_neq. Qed.

(** Once the widgets exist, the button's command never raises, whatever
    path the dialog returns and whatever PIL and the predictor do with it;
    the widgets and the predictor are still there afterwards and the root
    window is untouched. *)
Theorem upload_image_never_raises (file_path : string) (d : Desktop) :
  widgets_ready (gui d) = true ->
  exists d',
    TrafficSignGUI.upload_image cv2_resize photo_of times_100 exceeds file_path d
      = (Ok tt, d') /\
    widgets_ready (gui d') = true /\
    root (gui d') = root (gui d).
Proof.
  intros Hready.
  destruct (widgets_ready_inv _ Hready) as (p & il & rl & cm & Hp & Hil & Hrl & Hcm).
  assert (Hdone : forall g' w',
             predictor g' <> None -> image_label g' <> None ->
             result_label g' <> None -> confidence_meter g' <> None ->
             root g' = root (gui d) ->
             exists d', (Ok tt, {| gui := g'; os := w' |}) = (Ok tt, d') /\
                        widgets_ready (gui d') = true /\ root (gui d') = root (gui d)).
  { intros g' w' H1 H2 H3 H4 H5. eexists. split; [reflexivity|]. simpl.
    split; [|exact H5]. unfold widgets_ready.
    destruct (predictor g'), (image_label g'), (result_label g'),
      (confidence_meter g'); congruence. }
  shell. destruct (String.eqb file_path "").
  { destruct d as [g w]. apply Hdone; simpl in *; congruence. }
  destruct (photo_of file_path) as [photo|e]; simpl.
  2:{ rewrite Hrl. simpl. rewrite Hcm. simpl.
      apply Hdone; simpl; congruence. }
  rewrite Hil. simpl. rewrite Hp.
  destruct (predict_image cv2_resize file_path _) as [[[[[k|] label] conf]|e] st]; simpl.
  - rewrite Hrl. simpl. rewrite Hcm. simpl.
    destruct (exceeds conf f08); [|destruct (exceeds conf f05)]; simpl;
      apply Hdone; simpl; congruence.
  - apply Hdone; simpl; congruence.
  - rewrite Hrl. simpl. rewrite Hcm. simpl. apply Hdone; simpl; congruence.
Qed.

(** When PIL cannot make a preview of the chosen file, the result label
    shows "Error: " followed by the exception's message in the accent
    colour and the meter is set to 0; the preview, the meter's style, the
    predictor and the world are untouched, so no classification is run. *)
Theorem upload_preview_failure_is_reported (file_path : string) (d : Desktop) (e : exn) :
  file_path <> "" ->
  photo_of file_path = Raise e ->
  widgets_ready (gui d) = true ->
  let r := TrafficSignGUI.upload_image cv2_resize photo_of times_100 exceeds file_path d in
  fst r = Ok tt /\
  label_text <$> result_label (gui (snd r)) = Some ("Error: " +:+ str e) /\
  label_foreground <$> result_label (gui (snd r)) = Some ACCENT_COLOR /\
  bar_value <$> confidence_meter (gui (snd r)) = Some Float.zero /\
  bar_style <$> confidence_meter (gui (snd r)) = bar_style <$> confidence_meter (gui d) /\
  image_label (gui (snd r)) = image_label (gui d) /\
  predictor (gui (snd r)) = predictor (gui d) /\
  os (snd r) = os d.
Proof.
  intros Hne Hph Hready r. subst r.
  destruct (widgets_ready_inv _ Hready) as (p & il & rl & cm & Hp & Hil & Hrl & Hcm).
  shell. rewrite (nonempty_eqb _ Hne), Hph. simpl.
  rewrite Hrl. simpl. rewrite Hcm. simpl. rewrite ?Hcm. now repeat split.
Qed.

(** When the preview loads but [predict_image] reports an error (its
    class index is [None]), the command shows the new preview and leaves
    the result label and the meter exactly as they were: neither "Invalid
    image" nor "Prediction failed" is displayed. *)
Theorem upload_error_result_keeps_display (file_path : string) (d : Desktop)
        (photo : Photo) (p : Predictor) (label : string) (conf : spec_float) :
  file_path <> "" ->
  photo_of file_path = Ok photo ->
  widgets_ready (gui d) = true ->
  predictor (gui d) = Some p ->
  fst (predict_image cv2_resize file_path {| self := p; world := os d |})
    = Ok (None, label, conf) ->
  let r := TrafficSignGUI.upload_image cv2_resize photo_of times_100 exceeds file_path d in
  fst r = Ok tt /\
  result_label (gui (snd r)) = result_label (gui d) /\
  confidence_meter (gui (snd r)) = confidence_meter (gui d) /\
  label_image <$> image_label (gui (snd r)) = Some (Some photo) /\
  label_image_ref <$> image_label (gui (snd r)) = Some (Some photo).
Proof.
  intros Hne Hph Hready Hp Hrun r. subst r.
  destruct (widgets_ready_inv _ Hready) as (p' & il & rl & cm & Hp' & Hil & Hrl & Hcm).
  shell. rewrite (nonempty_eqb _ Hne), Hph. simpl.
  rewrite Hil. simpl. rewrite Hp.
  destruct (predict_image cv2_resize file_path _) as [res st]. simpl in Hrun. subst res.
  simpl. now repeat split.
Qed.

(** The display after a result with a class index, for any scalar
    arithmetic. *)
Lemma upload_image_decided (file_path : string) (d : Desktop)
        (photo : Photo) (p : Predictor) (k : Z) (label : string) (conf : spec_float) :
  file_path <> "" ->
  photo_of file_path = Ok photo ->
  widgets_ready (gui d) = true ->
  predictor (gui d) = Some p ->
  fst (predict_image cv2_resize file_path {| self := p; world := os d |})
    = Ok (Some k, label, conf) ->
  let r := TrafficSignGUI.upload_image cv2_resize photo_of times_100 exceeds file_path d in
  fst r = Ok tt /\
  label_text <$> result_label (gui (snd r))
    = Some ("Prediction: " +:+ label +:+ newline +:+ "(ID: " +:+ pretty k +:+ ")") /\
  label_foreground <$> result_label (gui (snd r)) = Some PRIMARY_COLOR /\
  bar_value <$> confidence_meter (gui (snd r)) = Some (times_100 conf) /\
  bar_style <$> confidence_meter (gui (snd r))
    = Some (if exceeds conf f08 then "Green.Horizontal.TProgressbar"
            else if exceeds conf f05 then "Yellow.Horizontal.TProgressbar"
            else "Red.Horizontal.TProgressbar") /\
  label_image <$> image_label (gui (snd r)) = Some (Some photo).
Proof.
  intros Hne Hph Hready Hp Hrun r. subst r.
  destruct (widgets_ready_inv _ Hready) as (p' & il & rl & cm & Hp' & Hil & Hrl & Hcm).
  shell. rewrite (nonempty_eqb _ Hne), Hph. simpl.
  rewrite Hil. simpl. rewrite Hp.
  destruct (predict_image cv2_resize file_path _) as [res st]. simpl in Hrun. subst res.
  simpl. rewrite Hrl. simpl. rewrite Hcm. simpl.
  destruct (exceeds conf f08); [|destruct (exceeds conf f05)]; simpl; now repeat split.
Qed.

End Shell.

(** ** The confidence display *)

Section Display.

Variable cv2_resize : Image -> nat * nat -> outcome Image.
Variable photo_of : string -> outcome Photo.

(** When the preview loads and [predict_image] returns a class index with
    a confidence in the closed unit interval, the result label reads
    "Prediction: <label>", a line feed, "(ID: <index>)" in the primary
    colour; the meter holds the product of the confidence and 100, rounded
    in the format numpy computes it in, and takes the green style when the
    confidence is greater than 0.8, the yellow one when it is greater than
    0.5 but not than 0.8, the red one otherwise.  The thresholds are the
    Python floats 0.8 and 0.5, converted to float32 first when numpy
    compares in float32. *)
Theorem upload_prediction_is_displayed (fmt : scalar_format) (file_path : string)
        (d : Desktop) (photo : Photo) (p : Predictor)
        (k : Z) (label : string) (conf : spec_float) :
  file_path <> "" ->
  photo_of file_path = Ok photo ->
  widgets_ready (gui d) = true ->
  predictor (gui d) = Some p ->
  fst (predict_image cv2_resize file_path {| self := p; world := os d |})
    = Ok (Some k, label, conf) ->
  Float.in_unit conf = true ->
  let r := TrafficSignGUI.upload_image cv2_resize photo_of
             (scalar_times_100 fmt) (scalar_exceeds fmt) file_path d in
  let product :=
    match fmt with
    | Binary64 => SFmul 53 1024 conf (binary_normalize 53 1024 100 0 false)
    | Binary32 => SFmul 24 128 (to_binary32 conf) (binary_normalize 24 128 100 0 false)
    end in
  let above (t : spec_float) :=
    match fmt with
    | Binary64 => SFltb t conf
    | Binary32 => SFltb (to_binary32 t) (to_binary32 conf)
    end in
  fst r = Ok tt /\
  label_text <$> result_label (gui (snd r))
    = Some ("Prediction: " +:+ label +:+ newline +:+ "(ID: " +:+ pretty k +:+ ")") /\
  label_foreground <$> result_label (gui (snd r)) = Some PRIMARY_COLOR /\
  bar_value <$> confidence_meter (gui (snd r)) = Some product /\
  (above f08 = true ->
   bar_style <$> confidence_meter (gui (snd r)) = Some "Green.Horizontal.TProgressbar") /\
  (above f08 = false -> above f05 = true ->
   bar_style <$> confidence_meter (gui (snd r)) = Some "Yellow.Horizontal.TProgressbar") /\
  (above f05 = false ->
   bar_style <$> confidence_meter (gui (snd r)) = Some "Red.Horizontal.TProgressbar") /\
  label_image <$> image_label (gui (snd r)) = Some (Some photo).
Proof.
  intros Hne Hph Hready Hp Hrun Hunit r product above.
  destruct (upload_image_decided cv2_resize photo_of (scalar_times_100 fmt)
              (scalar_exceeds fmt) file_path d photo p k label conf
              Hne Hph Hready Hp Hrun)
    as (H1 & H2 & H3 & H4 & H5 & H6).
  fold r in H1, H2, H3, H4, H5, H6.
  assert (Hab : forall t, scalar_exceeds fmt conf t = above t)
    by (intros t; subst above; now destruct fmt).
  assert (Hprod : scalar_times_100 fmt conf = product)
    by (subst product; now destruct fmt).
  rewrite (Hab f08), (Hab f05) in H5. rewrite Hprod in H4.
  split; [exact H1|]. split; [exact H2|]. split; [exact H3|]. split; [exact H4|].
  split; [|split; [|split; [|exact H6]]].
  - intros Hg. now rewrite Hg in H5.
  - intros Hg Hy. now rewrite Hg, Hy in H5.
  - intros Hr.
    destruct (above f08) eqn:Hg; [|now rewrite Hr in H5].
    exfalso. subst above. cbv beta in Hr, Hg.
    destruct fmt.
    + assert (H58 : Float.lt f05 f08 = true) by reflexivity.
      assert (Hc : Float.lt f05 conf = true)
        by (eapply float_le_lt_trans; [apply float_lt_le; exact H58|exact Hg]).
      unfold Float.lt in Hc. rewrite Hc in Hr. discriminate.
    + assert (H58 : Float.lt (to_binary32 f05) (to_binary32 f08) = true) by reflexivity.
      assert (Hc : Float.lt (to_binary32 f05) (to_binary32 conf) = true)
        by (eapply float_le_lt_trans; [apply float_lt_le; exact H58|exact Hg]).
      unfold Float.lt in Hc. rewrite Hc in Hr. discriminate.
Qed.

End Display.

(** ** Starting the application *)

Section Startup.

Ltac startup :=
  unfold TrafficSignGUI.main, TrafficSignGUI.__init__, TrafficSignGUI.new_predictor,
    TrafficSignGUI.create_widgets, TrafficSignGUI.setup_window,
    TrafficSignGUI.root_destroy, gtry, gbind, gret, gexists, gshowerror,
    TrafficSignPredictor.__init__, try_except, bind, ret, raise, messagebox.showerror,
    keras.load_model, os_path.exists_, set_model, set_categories, emit;
  simpl.

(** When the predictor cannot be constructed (the path is missing, or
    [load_model] raises), [TrafficSignGUI.__init__] swallows the exception:
    it returns normally with the root window destroyed, no widget and no
    predictor assigned, and the predictor's "Error" dialog as the last
    thing shown. *)
Theorem gui_init_failure_destroys_root (model_path : string) (d : Desktop) :
  path_exists (os d) model_path = false \/
  (exists e, model_files (os d) model_path = Raise e) ->
  let r := TrafficSignGUI.__init__ model_path d in
  fst r = Ok tt /\
  destroyed (root (gui (snd r))) = true /\
  predictor (gui (snd r)) = predictor (gui d) /\
  image_label (gui (snd r)) = image_label (gui d) /\
  result_label (gui (snd r)) = result_label (gui d) /\
  confidence_meter (gui (snd r)) = confidence_meter (gui d) /\
  exists evs msg,
    trace (os (snd r)) = trace (os d) ++ evs ++ [ErrorDialog "Error" msg].
Proof.
  intros Hfail r. subst r. startup.
  destruct (path_exists (os d) model_path) eqn:He; simpl.
  - destruct Hfail as [Hf|[e Hm]]; [discriminate|]. rewrite Hm. simpl.
    repeat split. eexists [_], _. now rewrite <- app_assoc.
  - repeat split. now exists [], ("Failed to load model: Model file '" +:+ model_path +:+ "' not found").
Qed.

(** When the artifact exists and parses, [TrafficSignGUI.__init__] sets
    up the window, constructs the predictor with the loaded model and the
    label table, and creates the widgets: the result label shows the
    prompt, the meter is at 0, the preview is empty, and the window is not
    destroyed by it. *)
Theorem gui_init_success_is_ready (model_path : string) (d : Desktop) (m : Model) :
  path_exists (os d) model_path = true ->
  model_files (os d) model_path = Ok m ->
  let r := TrafficSignGUI.__init__ model_path d in
  fst r = Ok tt /\
  widgets_ready (gui (snd r)) = true /\
  predictor (gui (snd r)) = Some {| model := Some m; categories := Some categories_dict |} /\
  label_text <$> result_label (gui (snd r)) = Some "Upload an image to get started" /\
  bar_value <$> confidence_meter (gui (snd r)) = Some Float.zero /\
  label_image <$> image_label (gui (snd r)) = Some None /\
  window_title (root (gui (snd r))) = "Traffic Sign Classifier" /\
  window_geometry (root (gui (snd r))) = "600x700" /\
  window_resizable (root (gui (snd r))) = (false, false) /\
  destroyed (root (gui (snd r))) = destroyed (root (gui d)) /\
  trace (os (snd r)) = trace (os d) ++ [ModelLoad model_path].
Proof.
  intros He Hm r. subst r. startup. rewrite He. simpl. rewrite Hm. simpl.
  now repeat split.
Qed.

(** When "best_model.h5" does not exist, the script shows the "Missing
    Model" dialog and does nothing else: no window setup, no predictor, no
    attempt to load. *)
Theorem main_missing_model_only_warns (d : Desktop) :
  path_exists (os d) "best_model.h5" = false ->
  TrafficSignGUI.main d =
    (Ok tt,
     {| gui := gui d;
        os := log (ErrorDialog "Missing Model"
                     ("Model file 'best_model.h5' not found." +:+ newline
                      +:+ "Please train the model first."))
                  (os d) |}).
Proof.
  intros He. startup. unfold TrafficSignGUI.MODEL_FILE. now rewrite He.
Qed.

(** The script always returns normally, in one of two ways: the
    application is ready after a single load and no dialog, or exactly one
    error dialog was shown and no predictor was installed.  The
    predictor's own "not found" dialog is never reached from the script. *)
Theorem main_ready_or_one_dialog (d : Desktop) :
  exists d',
    TrafficSignGUI.main d = (Ok tt, d') /\
    ((widgets_ready (gui d') = true /\
      trace (os d') = trace (os d) ++ [ModelLoad "best_model.h5"]) \/
     (predictor (gui d') = predictor (gui d) /\
      ((trace (os d') =
          trace (os d) ++ [ErrorDialog "Missing Model"
                             ("Model file 'best_model.h5' not found." +:+ newline
                              +:+ "Please train the model first.")] /\
        destroyed (root (gui d')) = destroyed (root (gui d))) \/
       (exists e,
          model_files (os d) "best_model.h5" = Raise e /\
          trace (os d') =
            trace (os d) ++ [ModelLoad "best_model.h5";
                             ErrorDialog "Error" ("Failed to load model: " +:+ str e)] /\
          destroyed (root (gui d')) = true)))).
Proof.
  startup. unfold TrafficSignGUI.MODEL_FILE.
  destruct (path_exists (os d) "best_model.h5") eqn:He; simpl.
  - rewrite He. simpl.
    destruct (model_files (os d) "best_model.h5") as [m|e] eqn:Hm; simpl.
    + eexists. split; [reflexivity|]. left. simpl. now split.
    + eexists. split; [reflexivity|]. right. simpl. split; [reflexivity|].
      right. exists e. repeat split. now rewrite <- app_assoc.
  - eexists. split; [reflexivity|]. right. simpl. split; [reflexivity|].
    left. now split.
Qed.

End Startup.

(** * Worked examples for the further properties *)

Lemma class_index_points_at_confidence_witness :
  exists img img' m p top,
    image_files (world Sample.ready) "stop.png" = Some img /\
    Sample.resize_nearest img (30, 30)%nat = Ok img' /\
    model (self Sample.ready) = Some m /\
    predict m (model_input img') = Ok p /\
    0 <= 14 < Z.of_nat (length (concat p)) /\
    concat p !! Z.to_nat 14 = Some top /\
    same_value top Sample.p95 /\
    In Sample.p95 (concat p).
Proof.
  assert (H : predict_image Sample.resize_nearest "stop.png" Sample.ready
              = (Ok (Some 14, "Stop", Sample.p95),
                 snd (predict_image Sample.resize_nearest "stop.png" Sample.ready)))
    by (vm_compute; reflexivity).
  exact (class_index_points_at_confidence Sample.resize_nearest _ _ _ _ _ _ H).
Defined.

Lemma unknown_label_iff_outside_table_witness :
  ("Stop" = "Unknown" <-> ~ (0 <= 14 <= 42)).
Proof.
  assert (Hd : categories (self Sample.ready) = Some categories_dict)
    by (vm_compute; reflexivity).
  assert (H : predict_image Sample.resize_nearest "stop.png" Sample.ready
              = (Ok (Some 14, "Stop", Sample.p95),
                 snd (predict_image Sample.resize_nearest "stop.png" Sample.ready)))
    by (vm_compute; reflexivity).
  exact (unknown_label_iff_outside_table Sample.resize_nearest _ _ _ _ _ _ Hd H).
Defined.

Lemma prints_exactly_on_failure_witness :
  exists evs,
    trace (world (snd (predict_image Sample.resize_nearest "stop.png" Sample.broken)))
      = trace (world Sample.broken) ++ evs /\
    exists pre e, evs = pre ++ [Stdout ("Prediction error: " +:+ str e)].
Proof.
  destruct (prints_exactly_on_failure Sample.resize_nearest Sample.broken "stop.png")
    as (evs & Htr & Hfail & _).
  assert (H : fst (predict_image Sample.resize_nearest "stop.png" Sample.broken)
              = Ok prediction_failed) by (vm_compute; reflexivity).
  destruct (Hfail H) as (pre & e & Hevs & _).
  exists evs. split; [exact Htr|]. now exists pre, e.
Defined.

Lemma nan_output_reports_first_nan_witness :
  let erratic := {| predict := fun _ => Ok [[Float.one; S754_nan; Float.zero; S754_nan]] |} in
  fst (predict_image Sample.resize_nearest "stop.png"
         {| self := {| model := Some erratic; categories := Some categories_dict |};
            world := Sample.disk |})
  = Ok (Some 1, "Speed limit (30km/h)", S754_nan).
Proof.
  intros erratic.
  pose (resized := match Sample.resize_nearest Sample.stop_sign (30, 30)%nat with
                   | Ok i => i
                   | Raise _ => []
                   end).
  assert (H2 : Sample.resize_nearest Sample.stop_sign (30, 30)%nat = Ok resized)
    by (vm_compute; reflexivity).
  exact (nan_output_reports_first_nan Sample.resize_nearest
           {| self := {| model := Some erratic; categories := Some categories_dict |};
              world := Sample.disk |}
           "stop.png" Sample.stop_sign resized erratic categories_dict
           [[Float.one; S754_nan; Float.zero; S754_nan]]
           [Float.one] [Float.zero; S754_nan]
           eq_refl H2 eq_refl eq_refl eq_refl eq_refl eq_refl).
Defined.

Lemma upload_image_never_raises_witness :
  exists d',
    SampleDesktop.upload "stop.png" SampleDesktop.running = (Ok tt, d') /\
    widgets_ready (gui d') = true /\
    root (gui d') = root (gui SampleDesktop.running).
Proof.
  assert (H : widgets_ready (gui SampleDesktop.running) = true)
    by (vm_compute; reflexivity).
  exact (upload_image_never_raises Sample.resize_nearest SampleDesktop.photo_of
           SampleDesktop.times_100 SampleDesktop.exceeds "stop.png"
           SampleDesktop.running H).
Defined.

Lemma upload_preview_failure_is_reported_witness :
  label_text <$> result_label (gui (snd (SampleDesktop.upload "nope.png" SampleDesktop.running)))
  = Some ("Error: " +:+ "[Errno 2] No such file or directory: 'nope.png'").
Proof.
  assert (H1 : "nope.png" <> "") by discriminate.
  assert (H2 : SampleDesktop.photo_of "nope.png"
               = Raise (FileNotFoundError "[Errno 2] No such file or directory: 'nope.png'"))
    by (vm_compute; reflexivity).
  assert (H3 : widgets_ready (gui SampleDesktop.running) = true)
    by (vm_compute; reflexivity).
  exact (proj1 (proj2 (upload_preview_failure_is_reported Sample.resize_nearest
                         SampleDesktop.photo_of SampleDesktop.times_100
                         SampleDesktop.exceeds "nope.png" SampleDesktop.running _
                         H1 H2 H3))).
Defined.

Lemma upload_error_result_keeps_display_witness :
  let r := SampleDesktop.upload "sign.gif" SampleDesktop.running in
  result_label (gui (snd r)) = result_label (gui SampleDesktop.running) /\
  confidence_meter (gui (snd r)) = confidence_meter (gui SampleDesktop.running).
Proof.
  assert (H1 : "sign.gif" <> "") by discriminate.
  assert (H2 : SampleDesktop.photo_of "sign.gif" = Ok Sample.stop_sign)
    by (vm_compute; reflexivity).
  assert (H3 : widgets_ready (gui SampleDesktop.running) = true)
    by (vm_compute; reflexivity).
  assert (H4 : predictor (gui SampleDesktop.running)
               = Some {| model := Some Sample.stop_model;
                         categories := Some categories_dict |})
    by (vm_compute; reflexivity).
  assert (H5 : fst (predict_image Sample.resize_nearest "sign.gif"
                      {| self := {| model := Some Sample.stop_model;
                                    categories := Some categories_dict |};
                         world := os SampleDesktop.running |})
               = Ok (None, "Invalid image", Float.zero))
    by (vm_compute; reflexivity).
  destruct (upload_error_result_keeps_display Sample.resize_nearest
              SampleDesktop.photo_of SampleDesktop.times_100 SampleDesktop.exceeds
              "sign.gif" SampleDesktop.running _ _ _ _ H1 H2 H3 H4 H5)
    as (_ & Hl & Hm & _).
  split; assumption.
Defined.

Lemma upload_prediction_is_displayed_witness :
  let r := TrafficSignGUI.upload_image Sample.resize_nearest SampleDesktop.photo_of
             (scalar_times_100 Binary32) (scalar_exceeds Binary32)
             "stop.png" SampleDesktop.running in
  label_text <$> result_label (gui (snd r))
    = Some ("Prediction: " +:+ "Stop" +:+ newline +:+ "(ID: " +:+ pretty 14 +:+ ")") /\
  bar_value <$> confidence_meter (gui (snd r))
    = Some (SFmul 24 128 (to_binary32 Sample.p95) (binary_normalize 24 128 100 0 false)) /\
  bar_style <$> confidence_meter (gui (snd r)) = Some "Green.Horizontal.TProgressbar".
Proof.
  assert (H1 : "stop.png" <> "") by discriminate.
  assert (H2 : SampleDesktop.photo_of "stop.png" = Ok Sample.stop_sign)
    by (vm_compute; reflexivity).
  assert (H3 : widgets_ready (gui SampleDesktop.running) = true)
    by (vm_compute; reflexivity).
  assert (H4 : predictor (gui SampleDesktop.running)
               = Some {| model := Some Sample.stop_model;
                         categories := Some categories_dict |})
    by (vm_compute; reflexivity).
  assert (H5 : fst (predict_image Sample.resize_nearest "stop.png"
                      {| self := {| model := Some Sample.stop_model;
                                    categories := Some categories_dict |};
                         world := os SampleDesktop.running |})
               = Ok (Some 14, "Stop", Sample.p95))
    by (vm_compute; reflexivity).
  assert (H6 : Float.in_unit Sample.p95 = true) by reflexivity.
  assert (H7 : SFltb (to_binary32 f08) (to_binary32 Sample.p95) = true) by reflexivity.
  destruct (upload_prediction_is_displayed Sample.resize_nearest SampleDesktop.photo_of
              Binary32 "stop.png" SampleDesktop.running _ _ _ _ _
              H1 H2 H3 H4 H5 H6)
    as (_ & Ht & _ & Hv & Hg & _).
  split; [exact Ht|]. split; [exact Hv|]. exact (Hg H7).
Defined.

Lemma gui_init_failure_destroys_root_witness :
  let r := TrafficSignGUI.__init__ "best_model.h5"
             {| gui := new_gui SampleDesktop.tk_root; os := SampleDesktop.corrupt_disk |} in
  fst r = Ok tt /\
  destroyed (root (gui (snd r))) = true /\
  predictor (gui (snd r)) = None.
Proof.
  destruct (gui_init_failure_destroys_root "best_model.h5"
              {| gui := new_gui SampleDesktop.tk_root; os := SampleDesktop.corrupt_disk |}
              (or_intror (ex_intro _ (LibraryError "file signature not found") eq_refl)))
    as (H1 & H2 & H3 & _).
  repeat split; assumption.
Defined.

Lemma gui_init_success_is_ready_witness :
  let r := TrafficSignGUI.__init__ "best_model.h5" SampleDesktop.start in
  fst r = Ok tt /\
  widgets_ready (gui (snd r)) = true /\
  destroyed (root (gui (snd r))) = false.
Proof.
  destruct (gui_init_success_is_ready "best_model.h5" SampleDesktop.start
              Sample.stop_model eq_refl eq_refl)
    as (H1 & H2 & _ & _ & _ & _ & _ & _ & _ & H3 & _).
  repeat split; assumption.
Defined.

Lemma main_missing_model_only_warns_witness :
  gui (snd (TrafficSignGUI.main
              {| gui := new_gui SampleDesktop.tk_root; os := SampleDesktop.bare_disk |}))
  = new_gui SampleDesktop.tk_root.
Proof.
  rewrite (main_missing_model_only_warns
             {| gui := new_gui SampleDesktop.tk_root; os := SampleDesktop.bare_disk |}
             eq_refl).
  reflexivity.
Defined.
